(** * rzchroma: the Razer DeathAdder Chroma control report

    A shallow embedding of [rzchroma.c]: the 89-byte feature report
    ([struct rzchroma_report]), its XOR checksum ([report_crc]) and the
    attribute write path ([write_attr] and its two sysfs entry points).

    C integers are mathematical integers ([Z]) with every conversion the
    C code performs written out: [u8] stores reduce modulo 256, a read
    through [const char *] goes through [char_val], comparisons between an
    [int] or [u8] and a [size_t] convert to [size_t] first. *)

From stdpp Require Import base numbers list.
From Stdlib Require Import ZArith Lia.

Local Open Scope Z_scope.

(** ** Platform *)

(** The two properties of the C implementation the code depends on: the
    width of [size_t]/[ssize_t] and the signedness of plain [char]. *)
Inductive word_size := ILP32 | LP64.

Record platform := Platform {
  long_size : word_size;
  char_signed : bool
}.

Definition size_bits (p : platform) : Z :=
  match long_size p with ILP32 => 32 | LP64 => 64 end.

(** ** Integer conversions *)

Definition to_u8 (z : Z) : Z := z mod 256.

Definition to_size_t (p : platform) (z : Z) : Z := z mod 2 ^ size_bits p.

Definition to_signed (bits z : Z) : Z :=
  (z + 2 ^ (bits - 1)) mod 2 ^ bits - 2 ^ (bits - 1).

Definition to_int (z : Z) : Z := to_signed 32 z.

Definition to_ssize_t (p : platform) (z : Z) : Z := to_signed (size_bits p) z.

(** The value of a byte of memory read through a [char] lvalue and
    promoted to [int]. *)
Definition char_val (p : platform) (b : Z) : Z :=
  if char_signed p && (128 <=? b) then b - 256 else b.

Definition is_u8 (z : Z) : Prop := 0 <= z < 256.

(** ** Results of running a piece of the driver *)

Inductive outcome (A : Type) : Type :=
| Done (a : A)     (* returned [a] *)
| Fault            (* read outside the buffer it was given *)
| OutOfFuel.       (* still looping when the step budget ran out *)

Arguments Done {A} a.
Arguments Fault {A}.
Arguments OutOfFuel {A}.

(** ** [report_crc] *)

(** The loop of [report_crc]: [for (...; i < count - 2; i++) crc ^= data[i];]
    with [bound] the value of [count - 2] (a [size_t]), [i] and [crc] the
    two [u8] locals.  One unit of fuel is one evaluation of the loop
    condition. *)
Fixpoint report_crc_loop (p : platform) (data : list Z) (bound : Z)
    (fuel : nat) (i crc : Z) : outcome Z :=
  match fuel with
  | O => OutOfFuel
  | S fuel' =>
      if i <? bound then
        match data !! Z.to_nat i with
        | Some b =>
            report_crc_loop p data bound fuel'
              (to_u8 (i + 1)) (to_u8 (Z.lxor crc (char_val p b)))
        | None => Fault
        end
      else Done crc
  end.

(** [static inline u8 report_crc(const char *data, size_t count)]:
    [u8 i, crc = 0; for (i = 2; i < count - 2; i++) ...; return crc;] *)
Definition report_crc (p : platform) (fuel : nat) (data : list Z) (count : Z)
    : outcome Z :=
  report_crc_loop p data (to_size_t p (count - 2)) fuel 2 0.

(** The checksum in the words of the protocol description: the XOR-fold of
    the bytes at the indices [lo <= i < hi]. *)
Definition xor_window (data : list Z) (lo hi : nat) : Z :=
  foldl (fun acc i => Z.lxor acc (default 0 (data !! i))) 0 (seq lo (hi - lo)).

(** ** The report *)

(** [enum { ATTR_WHEEL_COLOR = 0x01, ATTR_LOGO_COLOR = 0x04 }] *)
Definition ATTR_WHEEL_COLOR : Z := 0x01.
Definition ATTR_LOGO_COLOR : Z := 0x04.

(** [struct rzchroma_report]: ten members, all of type [u8] (or array of
    [u8]), so the structure has no padding and its bytes are its members
    in declaration order. *)
Record rzchroma_report := Report {
  status : Z;
  transaction_id : Z;
  remaining_packets : Z;
  protocol_type : Z;
  args_len : Z;
  cmd_class : Z;
  cmd_id : Z;
  args : list Z;
  crc : Z;
  _reserved : Z
}.

Definition ARGS_SIZE : nat := 80.

(** [sizeof(struct rzchroma_report)] *)
Definition sizeof_report : Z := 7 + Z.of_nat ARGS_SIZE + 2.

(** The object a [u8] pointer to the report sees. *)
Definition report_bytes (r : rzchroma_report) : list Z :=
  [status r; transaction_id r; remaining_packets r; protocol_type r;
   args_len r; cmd_class r; cmd_id r] ++ args r ++ [crc r; _reserved r].

(** What [kzalloc] hands back: every byte zero. *)
Definition zero_report : rzchroma_report :=
  Report 0 0 0 0 0 0 0 (replicate ARGS_SIZE 0) 0 0.

(** Assignments to members; the stored value is converted to [u8]. *)
Definition set_transaction_id (v : Z) (r : rzchroma_report) : rzchroma_report :=
  Report (status r) (to_u8 v) (remaining_packets r) (protocol_type r)
    (args_len r) (cmd_class r) (cmd_id r) (args r) (crc r) (_reserved r).

Definition set_args_len (v : Z) (r : rzchroma_report) : rzchroma_report :=
  Report (status r) (transaction_id r) (remaining_packets r) (protocol_type r)
    (to_u8 v) (cmd_class r) (cmd_id r) (args r) (crc r) (_reserved r).

Definition set_cmd_class (v : Z) (r : rzchroma_report) : rzchroma_report :=
  Report (status r) (transaction_id r) (remaining_packets r) (protocol_type r)
    (args_len r) (to_u8 v) (cmd_id r) (args r) (crc r) (_reserved r).

Definition set_cmd_id (v : Z) (r : rzchroma_report) : rzchroma_report :=
  Report (status r) (transaction_id r) (remaining_packets r) (protocol_type r)
    (args_len r) (cmd_class r) (to_u8 v) (args r) (crc r) (_reserved r).

(** [report->args[k] = v] for a constant [k < 80]. *)
Definition set_arg (k : nat) (v : Z) (r : rzchroma_report) : rzchroma_report :=
  Report (status r) (transaction_id r) (remaining_packets r) (protocol_type r)
    (args_len r) (cmd_class r) (cmd_id r) (<[k := to_u8 v]> (args r))
    (crc r) (_reserved r).

Definition set_crc (v : Z) (r : rzchroma_report) : rzchroma_report :=
  Report (status r) (transaction_id r) (remaining_packets r) (protocol_type r)
    (args_len r) (cmd_class r) (cmd_id r) (args r) (to_u8 v) (_reserved r).

(** ** The kernel around [write_attr] *)

(** [EIO], [ENOMEM], [EINVAL] of the kernel's [errno-base.h]. *)
Definition EIO : Z := 5.
Definition ENOMEM : Z := 12.
Definition EINVAL : Z := 22.

(** What the kernel does when asked: whether [kzalloc] finds memory, the
    byte [get_random_bytes] produces, and the value [usb_control_msg]
    returns for a buffer and a size. *)
Record env := Env {
  kzalloc_ok : bool;
  random_byte : Z;
  usb_result : list Z -> Z -> Z
}.

(** The calls [write_attr] makes, in order.  For [usb_control_msg] the
    buffer, the size and the value returned are recorded; the other
    arguments are constants of the call. *)
Inductive event :=
| Ev_pr_info (size attr_id : Z)
| Ev_kzalloc (size : Z) (ok : bool)
| Ev_get_random_bytes (v : Z)
| Ev_usb_control_msg (data : list Z) (size : Z) (rc : Z)
| Ev_kfree.

(** Computations that log kernel calls and may fault or run out of fuel. *)
Definition M (A : Type) : Type := list event -> outcome (A * list event).

#[global] Instance M_ret : MRet M := fun A a tr => Done (a, tr).

#[global] Instance M_bind : MBind M := fun A B f m tr =>
  match m tr with
  | Done (a, tr') => f a tr'
  | Fault => Fault
  | OutOfFuel => OutOfFuel
  end.

Definition emit (ev : event) : M unit := fun tr => Done (tt, tr ++ [ev]).

Definition lift {A} (o : outcome A) : M A := fun tr =>
  match o with
  | Done a => Done (a, tr)
  | Fault => Fault
  | OutOfFuel => OutOfFuel
  end.

Definition run {A} (m : M A) : outcome (A * list event) := m [].

Definition kzalloc (e : env) (size : Z) : M (option rzchroma_report) :=
  emit (Ev_kzalloc size (kzalloc_ok e));;
  mret (if kzalloc_ok e then Some zero_report else None).

Definition get_random_bytes (e : env) : M Z :=
  emit (Ev_get_random_bytes (to_u8 (random_byte e)));;
  mret (to_u8 (random_byte e)).

(** The result is stored in [int rc]. *)
Definition usb_control_msg (e : env) (data : list Z) (size : Z) : M Z :=
  let rc := to_int (usb_result e data size) in
  emit (Ev_usb_control_msg data size rc);;
  mret rc.

(** [buf[k]] for [const char *buf]. *)
Definition read_char (p : platform) (buf : list Z) (k : nat) : M Z :=
  match buf !! k with
  | Some b => mret (char_val p b)
  | None => lift Fault
  end.

(** The loop of [report_crc] evaluates its condition [count - 3] times on
    the report; this budget covers it. *)
Definition crc_fuel : nat := Z.to_nat sizeof_report.

(** ** [write_attr] and the two attribute handlers *)

Definition write_attr (p : platform) (e : env) (attr_id : Z)
    (buf : list Z) (count : Z) : M Z :=
  if bool_decide (count ≠ 3) then mret (to_ssize_t p (- EINVAL))
  else
    emit (Ev_pr_info sizeof_report attr_id);;
    report ← kzalloc e sizeof_report;
    match report with
    | None => mret (to_ssize_t p (- ENOMEM))
    | Some report =>
        let report := set_cmd_class 0x03 report in
        let report := set_cmd_id 0x01 report in
        tid ← get_random_bytes e;
        let report := set_transaction_id tid report in
        let report := set_args_len 5 report in
        let report := set_arg 0 1 report in
        let report := set_arg 1 attr_id report in
        b0 ← read_char p buf 0;
        let report := set_arg 2 b0 report in
        b1 ← read_char p buf 1;
        let report := set_arg 3 b1 report in
        b2 ← read_char p buf 2;
        let report := set_arg 4 b2 report in
        c ← lift (report_crc p crc_fuel (report_bytes report) sizeof_report);
        let report := set_crc c report in
        rc ← usb_control_msg e (report_bytes report) sizeof_report;
        emit Ev_kfree;;
        if bool_decide (to_size_t p rc ≠ sizeof_report)
        then mret (to_ssize_t p (if rc <? 0 then rc else - EIO))
        else mret (to_ssize_t p count)
    end.

Definition rzchroma_attr_write_logo_color (p : platform) (e : env)
    (buf : list Z) (count : Z) : M Z :=
  write_attr p e ATTR_LOGO_COLOR buf count.

Definition rzchroma_attr_write_wheel_color (p : platform) (e : env)
    (buf : list Z) (count : Z) : M Z :=
  write_attr p e ATTR_WHEEL_COLOR buf count.

(** ** Derived forms used in the statements *)

(** XOR of a list of bytes. *)
Definition xor_all (l : list Z) : Z := foldl Z.lxor 0 l.

(** One iteration of the body of [report_crc] on the byte at index [i]. *)
Definition crc_step (p : platform) (data : list Z) (acc : Z) (i : nat) : Z :=
  to_u8 (Z.lxor acc (char_val p (default 0 (data !! i)))).

(** The report as [write_attr] has filled it in when it calls
    [report_crc]: every assignment between [kzalloc] and the checksum. *)
Definition fill_report (p : platform) (tid attr_id b0 b1 b2 : Z)
    : rzchroma_report :=
  set_arg 4 (char_val p b2)
    (set_arg 3 (char_val p b1)
      (set_arg 2 (char_val p b0)
        (set_arg 1 attr_id
          (set_arg 0 1
            (set_args_len 5
              (set_transaction_id tid
                (set_cmd_id 0x01 (set_cmd_class 0x03 zero_report)))))))).

(** The report as [write_attr] passes it to [usb_control_msg]. *)
Definition sent_report (p : platform) (tid attr_id b0 b1 b2 : Z)
    : rzchroma_report :=
  let r := fill_report p tid attr_id b0 b1 b2 in
  set_crc (xor_window (report_bytes r) 2 87) r.

(** What the checksum computation and the transmission must both see. *)
Definition report_inv (r : rzchroma_report) : Prop :=
  status r = 0 /\ remaining_packets r = 0 /\ protocol_type r = 0 /\
  _reserved r = 0 /\ args_len r = 5 /\ length (args r) = ARGS_SIZE /\
  forall k : nat, (5 <= k < 80)%nat -> args r !! k = Some 0.

(** The value [write_attr] returns once [usb_control_msg] returned [rc]. *)
Definition transfer_result (p : platform) (rc count : Z) : Z :=
  if bool_decide (to_size_t p rc ≠ sizeof_report)
  then to_ssize_t p (if rc <? 0 then rc else - EIO)
  else to_ssize_t p count.

(** The calls of a [write_attr] that got as far as the transfer. *)
Definition send_trace (attr_id tid : Z) (data : list Z) (rc : Z) : list event :=
  [Ev_pr_info sizeof_report attr_id;
   Ev_kzalloc sizeof_report true;
   Ev_get_random_bytes tid;
   Ev_usb_control_msg data sizeof_report rc;
   Ev_kfree].

(** [data[k] = v] on a byte buffer. *)
Definition poke (k : nat) (v : Z) (data : list Z) : list Z := <[k := v]> data.

Definition is_usb_event (ev : event) : bool :=
  match ev with Ev_usb_control_msg _ _ _ => true | _ => false end.

Definition lp64_signed : platform := Platform LP64 true.
Definition ilp32_unsigned : platform := Platform ILP32 false.

(** ** Forms used in the further properties *)

(** Exchange [data[i]] and [data[j]]; nothing happens when an index is
    outside the buffer. *)
Definition swap_bytes (i j : nat) (data : list Z) : list Z :=
  match data !! i, data !! j with
  | Some xi, Some xj => poke i xj (poke j xi data)
  | _, _ => data
  end.

(** The 89 bytes on the wire for transaction id [tid], LED id [led] and
    colour [(r, g, b)]. *)
Definition wire_image (tid led r g b : Z) : list Z :=
  [0; tid; 0; 0; 5; 3; 1; 1; led; r; g; b] ++ replicate 75 0
  ++ [Z.lxor (Z.lxor (Z.lxor (Z.lxor 6 led) r) g) b; 0].

(** The discipline a call trace keeps with the report buffer: [held]
    says whether the buffer is allocated.  A buffer is allocated only when
    none is held, transferred and freed only while held, and none is held
    at the end. *)
Fixpoint heap_trace_ok (held : bool) (tr : list event) : bool :=
  match tr with
  | [] => negb held
  | Ev_kzalloc _ true :: tr' => negb held && heap_trace_ok true tr'
  | Ev_usb_control_msg _ _ _ :: tr' => held && heap_trace_ok held tr'
  | Ev_kfree :: tr' => held && heap_trace_ok false tr'
  | _ :: tr' => heap_trace_ok held tr'
  end.

Definition usb_calls (tr : list event) : nat :=
  length (List.filter is_usb_event tr).

(** ** Binding and unbinding the device *)

(** The two attributes declared with [DEVICE_ATTR]. *)
Inductive device_attribute := dev_attr_logo_color | dev_attr_wheel_color.

#[global] Instance device_attribute_eq_dec : EqDecision device_attribute.
Proof. solve_decision. Defined.

(** The three messages of [rzchroma_probe]: "hid_parse() failed",
    "hid_hw_start() failed", "hid_hw_open() failed". *)
Inductive probe_error := hid_parse_failed | hid_hw_start_failed | hid_hw_open_failed.

(** The calls of [rzchroma_probe] and [rzchroma_remove]; the HID calls
    carry the value they returned. *)
Inductive hid_event :=
| Hid_device_create_file (a : device_attribute)
| Hid_device_remove_file (a : device_attribute)
| Hid_parse (rc : Z)
| Hid_hw_start (rc : Z)
| Hid_hw_open (rc : Z)
| Hid_hw_close
| Hid_hw_stop
| Hid_err (msg : probe_error)
| Hid_usb_disable_autosuspend.

(** What the HID core answers to the three calls of the probe. *)
Record hid_env := HidEnv {
  hid_parse_result : Z;
  hid_hw_start_result : Z;
  hid_hw_open_result : Z
}.

(** [static int rzchroma_probe(struct hid_device *hdev, ...)]: the value
    returned and the calls made.  The results of the two
    [device_create_file] calls are discarded by the code. *)
Definition rzchroma_probe (k : hid_env) : Z * list hid_event :=
  let tr := [Hid_device_create_file dev_attr_logo_color;
             Hid_device_create_file dev_attr_wheel_color] in
  let rc := to_int (hid_parse_result k) in
  let tr := tr ++ [Hid_parse rc] in
  if bool_decide (rc ≠ 0) then (rc, tr ++ [Hid_err hid_parse_failed])
  else
    let rc := to_int (hid_hw_start_result k) in
    let tr := tr ++ [Hid_hw_start rc] in
    if bool_decide (rc ≠ 0) then (rc, tr ++ [Hid_err hid_hw_start_failed])
    else
      let rc := to_int (hid_hw_open_result k) in
      let tr := tr ++ [Hid_hw_open rc] in
      if bool_decide (rc ≠ 0) then (rc, tr ++ [Hid_err hid_hw_open_failed])
      else (0, tr ++ [Hid_usb_disable_autosuspend]).


Definition is_cleanup (ev : hid_event) : bool :=
  match ev with
  | Hid_device_remove_file _ | Hid_hw_close | Hid_hw_stop => true
  | _ => false
  end.

(** The life cycle of a binding, read along a trace: [files] are the
    attribute files that exist, [started] and [opened] the state of the
    hardware.  A file is removed only if it exists, the hardware is opened
    only once started, closed only when open, stopped only when started
    and closed; at the end nothing is left. *)
Fixpoint lifecycle_ok (files : list device_attribute) (started opened : bool)
    (tr : list hid_event) : bool :=
  match tr with
  | [] => bool_decide (files = []) && negb started && negb opened
  | Hid_device_create_file a :: tr' =>
      lifecycle_ok (a :: files) started opened tr'
  | Hid_device_remove_file a :: tr' =>
      bool_decide (a ∈ files)
      && lifecycle_ok (List.filter (fun b => negb (bool_decide (a = b))) files)
           started opened tr'
  | Hid_hw_start rc :: tr' =>
      if bool_decide (rc = 0) then negb started && lifecycle_ok files true opened tr'
      else lifecycle_ok files started opened tr'
  | Hid_hw_open rc :: tr' =>
      if bool_decide (rc = 0) then started && negb opened && lifecycle_ok files started true tr'
      else lifecycle_ok files started opened tr'
  | Hid_hw_close :: tr' => opened && lifecycle_ok files started false tr'
  | Hid_hw_stop :: tr' => started && negb opened && lifecycle_ok files false opened tr'
  | _ :: tr' => lifecycle_ok files started opened tr'
  end.

(** * Proofs *)

(** Equations between XOR expressions, bit by bit. *)
Ltac xor_bits :=
  apply Z.bits_inj'; intros ?n _; rewrite !Z.lxor_spec, ?Z.bits_0;
  repeat match goal with
         | |- context [Z.testbit ?a ?n] => destruct (Z.testbit a n)
         end;
  reflexivity.

Ltac u8 := unfold is_u8 in *; lia.

(** ** Integer conversions *)

Lemma size_bits_cases p : size_bits p = 32 \/ size_bits p = 64.
Proof. unfold size_bits. destruct (long_size p); auto. Qed.

Lemma to_u8_range z : is_u8 (to_u8 z).
Proof. unfold is_u8, to_u8. apply Z.mod_pos_bound. lia. Qed.

Lemma to_u8_small z : is_u8 z -> to_u8 z = z.
Proof. unfold is_u8, to_u8. intros. apply Z.mod_small. lia. Qed.

Lemma to_size_t_small p z : 0 <= z < 2 ^ 32 -> to_size_t p z = z.
Proof.
  intros Hz. unfold to_size_t. apply Z.mod_small.
  destruct (size_bits_cases p) as [-> | ->]; lia.
Qed.

Lemma to_signed_small bits z :
  0 < bits -> - 2 ^ (bits - 1) <= z < 2 ^ (bits - 1) -> to_signed bits z = z.
Proof.
  intros Hb Hz. unfold to_signed.
  assert (2 ^ bits = 2 * 2 ^ (bits - 1)) as Hp.
  { replace bits with (Z.succ (bits - 1)) at 1 by lia. apply Z.pow_succ_r. lia. }
  rewrite Z.mod_small; lia.
Qed.

Lemma to_int_range z : - 2 ^ 31 <= to_int z < 2 ^ 31.
Proof.
  unfold to_int, to_signed.
  pose proof (Z.mod_pos_bound (z + 2 ^ (32 - 1)) (2 ^ 32)). lia.
Qed.

Lemma to_ssize_t_int p z : - 2 ^ 31 <= z < 2 ^ 31 -> to_ssize_t p z = z.
Proof.
  intros Hz. unfold to_ssize_t.
  destruct (size_bits_cases p) as [-> | ->]; apply to_signed_small; lia.
Qed.

(** Reduction modulo a power of two commutes with XOR. *)
Lemma lxor_mod_pow2 a b n :
  0 <= n -> Z.lxor a b mod 2 ^ n = Z.lxor (a mod 2 ^ n) (b mod 2 ^ n).
Proof.
  intros Hn. apply Z.bits_inj'. intros i Hi.
  rewrite Z.lxor_spec, !Z.testbit_mod_pow2, Z.lxor_spec by lia.
  destruct (i <? n); reflexivity.
Qed.

Lemma char_val_mod p b : is_u8 b -> char_val p b mod 256 = b.
Proof.
  unfold is_u8, char_val. intros Hb.
  destruct (char_signed p && (128 <=? b)).
  - replace (b - 256) with (b + (-1) * 256) by lia.
    rewrite Z.mod_add by lia. apply Z.mod_small. lia.
  - apply Z.mod_small. lia.
Qed.

Lemma to_u8_char_val p b : is_u8 b -> to_u8 (char_val p b) = b.
Proof. apply char_val_mod. Qed.

(** Whatever the signedness of [char], [crc ^= data[i]] XORs the byte in. *)
Lemma xor_char_u8 p c b :
  is_u8 c -> is_u8 b -> to_u8 (Z.lxor c (char_val p b)) = Z.lxor c b.
Proof.
  intros Hc Hb. unfold to_u8. change 256 with (2 ^ 8).
  rewrite lxor_mod_pow2 by lia. change (2 ^ 8) with 256.
  rewrite char_val_mod by assumption.
  rewrite Z.mod_small by (unfold is_u8 in Hc; lia). reflexivity.
Qed.

Lemma lxor_u8 a b : is_u8 a -> is_u8 b -> is_u8 (Z.lxor a b).
Proof.
  intros Ha Hb. rewrite <- (xor_char_u8 (Platform LP64 false) a b) by assumption.
  apply to_u8_range.
Qed.

Lemma lxor_cancel_l a b c : Z.lxor a b = Z.lxor a c -> b = c.
Proof.
  intros H. apply (f_equal (Z.lxor a)) in H.
  rewrite <- !Z.lxor_assoc, Z.lxor_nilpotent, !Z.lxor_0_l in H. exact H.
Qed.

(** ** The checksum loop *)

(** With the bound within reach of the 8-bit counter, the loop runs
    [bound - i] iterations and returns. *)
Lemma report_crc_loop_run p data bound n :
  forall fuel i c,
    0 <= i -> i + Z.of_nat n = bound -> bound <= 255 ->
    bound <= Z.of_nat (length data) -> (n < fuel)%nat ->
    report_crc_loop p data bound fuel i c
    = Done (foldl (crc_step p data) c (seq (Z.to_nat i) n)).
Proof.
  induction n as [|n IH]; intros fuel i c Hi Hn Hb Hlen Hfuel.
  - destruct fuel as [|fuel]; [lia|]. simpl.
    destruct (Z.ltb_spec i bound); [lia|]. reflexivity.
  - destruct fuel as [|fuel]; [lia|]. simpl report_crc_loop.
    destruct (Z.ltb_spec i bound); [|lia].
    destruct (lookup_lt_is_Some_2 data (Z.to_nat i)) as [b Hb']; [lia|].
    rewrite Hb'. rewrite (to_u8_small (i + 1)) by u8.
    rewrite IH by lia.
    replace (Z.to_nat (i + 1)) with (S (Z.to_nat i)) by lia.
    simpl. unfold crc_step at 3. rewrite Hb'. reflexivity.
Qed.

(** With the bound out of reach, the condition [i < count - 2] holds for
    every value the counter takes, and the loop never returns. *)
Lemma report_crc_loop_never_done p data bound fuel :
  256 <= bound ->
  forall i c v, is_u8 i -> report_crc_loop p data bound fuel i c <> Done v.
Proof.
  intros Hb. induction fuel as [|fuel IH]; intros i c v Hi; simpl; [discriminate|].
  destruct (Z.ltb_spec i bound); [|u8].
  destruct (data !! Z.to_nat i); [|discriminate].
  apply IH, to_u8_range.
Qed.

Lemma report_crc_loop_spins p data bound fuel :
  256 <= bound -> (256 <= length data)%nat ->
  forall i c, is_u8 i -> report_crc_loop p data bound fuel i c = OutOfFuel.
Proof.
  intros Hb Hlen. induction fuel as [|fuel IH]; intros i c Hi; simpl; [reflexivity|].
  destruct (Z.ltb_spec i bound); [|u8].
  destruct (lookup_lt_is_Some_2 data (Z.to_nat i)) as [b Hb'];
    [u8|].
  rewrite Hb'. apply IH, to_u8_range.
Qed.

Lemma default_lookup_u8 (data : list Z) i :
  Forall is_u8 data -> is_u8 (default 0 (data !! i)).
Proof.
  intros Hd. destruct (data !! i) as [b|] eqn:E; simpl.
  - exact (Forall_lookup_1 _ _ _ _ Hd E).
  - u8.
Qed.

(** On bytes, the loop body is a plain XOR. *)
Lemma foldl_crc_step_xor p (data : list Z) :
  Forall is_u8 data ->
  forall (l : list nat) c, is_u8 c ->
    foldl (crc_step p data) c l
    = foldl (fun acc i => Z.lxor acc (default 0 (data !! i))) c l
    /\ is_u8 (foldl (crc_step p data) c l).
Proof.
  intros Hd. induction l as [|i l IH]; intros c Hc; simpl; [auto|].
  pose proof (default_lookup_u8 data i Hd) as Hb.
  unfold crc_step at 2 4. rewrite xor_char_u8 by assumption.
  apply IH, lxor_u8; assumption.
Qed.

Lemma foldl_lookup_take_drop (data : list Z) n :
  forall lo c, (lo + n <= length data)%nat ->
    foldl (fun acc i => Z.lxor acc (default 0 (data !! i))) c (seq lo n)
    = foldl Z.lxor c (take n (drop lo data)).
Proof.
  induction n as [|n IH]; intros lo c Hlen; simpl; [reflexivity|].
  destruct (lookup_lt_is_Some_2 data lo) as [b Hb]; [lia|].
  rewrite (drop_S _ _ _ Hb), Hb. simpl. apply IH. lia.
Qed.

(** The window as a slice. *)
Lemma xor_window_slice (data : list Z) lo hi :
  (hi <= length data)%nat ->
  xor_window data lo hi = xor_all (take (hi - lo) (drop lo data)).
Proof.
  intros Hlen. unfold xor_window, xor_all.
  destruct (decide (lo <= hi)%nat).
  - apply foldl_lookup_take_drop. lia.
  - replace (hi - lo)%nat with 0%nat by lia. reflexivity.
Qed.

Lemma xor_window_u8 (data : list Z) lo hi :
  Forall is_u8 data -> is_u8 (xor_window data lo hi).
Proof.
  intros Hd. unfold xor_window.
  destruct (foldl_crc_step_xor lp64_signed data Hd (seq lo (hi - lo)) 0) as [<- H];
    [u8 | exact H].
Qed.

(** [report_crc] on its terminating range: what the loop leaves in [crc]. *)
Lemma report_crc_returns p fuel (data : list Z) count :
  2 <= count <= 257 -> count <= Z.of_nat (length data) ->
  Z.max 1 (count - 3) <= Z.of_nat fuel ->
  report_crc p fuel data count
  = Done (foldl (crc_step p data) 0 (seq 2 (Z.to_nat (count - 2) - 2))).
Proof.
  intros Hc Hlen Hfuel. unfold report_crc.
  rewrite to_size_t_small by lia.
  destruct (Z.le_gt_cases 2 (count - 2)) as [Hge | Hlt].
  - apply (report_crc_loop_run p data (count - 2)); lia.
  - replace (Z.to_nat (count - 2) - 2)%nat with 0%nat by lia. simpl.
    destruct fuel as [|fuel]; [lia|]. simpl.
    destruct (Z.ltb_spec 2 (count - 2)); [lia|]. reflexivity.
Qed.

Lemma report_crc_window p fuel (data : list Z) count :
  Forall is_u8 data -> 2 <= count <= 257 ->
  count <= Z.of_nat (length data) -> Z.max 1 (count - 3) <= Z.of_nat fuel ->
  report_crc p fuel data count
  = Done (xor_window data 2 (Z.to_nat (count - 2))).
Proof.
  intros Hd Hc Hlen Hfuel. rewrite report_crc_returns by assumption.
  f_equal. apply foldl_crc_step_xor; [assumption | u8].
Qed.

(** Outside that range the bound is at least 256. *)
Lemma report_crc_bound_large p count :
  0 <= count < 2 ^ size_bits p -> count < 2 \/ 257 < count ->
  256 <= to_size_t p (count - 2).
Proof.
  intros Hr Hc. unfold to_size_t.
  assert (2 ^ 32 <= 2 ^ size_bits p) as Hw
    by (destruct (size_bits_cases p) as [-> | ->]; lia).
  destruct Hc as [Hlo | Hhi].
  - replace (count - 2) with ((count - 2 + 2 ^ size_bits p) + (-1) * 2 ^ size_bits p)
      by lia.
    rewrite Z.mod_add, Z.mod_small by lia. lia.
  - rewrite Z.mod_small by lia. lia.
Qed.

(** ** Changing one byte of the buffer *)

Lemma foldl_xor_lookup_acc (data : list Z) (l : list nat) c :
  foldl (fun acc i => Z.lxor acc (default 0 (data !! i))) c l
  = Z.lxor c (foldl (fun acc i => Z.lxor acc (default 0 (data !! i))) 0 l).
Proof.
  revert c. induction l as [|i l IH]; intros c; simpl.
  - symmetry. apply Z.lxor_0_r.
  - rewrite IH, (IH (Z.lxor 0 _)). xor_bits.
Qed.

Lemma foldl_xor_lookup_poke_ne (data : list Z) k v (l : list nat) c :
  k ∉ l ->
  foldl (fun acc i => Z.lxor acc (default 0 (poke k v data !! i))) c l
  = foldl (fun acc i => Z.lxor acc (default 0 (data !! i))) c l.
Proof.
  revert c. induction l as [|i l IH]; intros c Hk; simpl; [reflexivity|].
  apply not_elem_of_cons in Hk as [Hne Hk]. unfold poke at 2.
  rewrite list_lookup_insert_ne by assumption. apply IH, Hk.
Qed.

(** A byte outside the window does not reach the checksum. *)
Lemma xor_window_poke_outside (data : list Z) k v lo hi :
  (k < lo \/ hi <= k)%nat ->
  xor_window (poke k v data) lo hi = xor_window data lo hi.
Proof.
  intros Hk. unfold xor_window. apply foldl_xor_lookup_poke_ne.
  rewrite elem_of_seq. lia.
Qed.

(** A byte inside the window is XORed in exactly once. *)
Lemma xor_window_poke_inside (data : list Z) k v lo hi x :
  (lo <= k < hi)%nat -> data !! k = Some x ->
  xor_window (poke k v data) lo hi
  = Z.lxor (xor_window data lo hi) (Z.lxor x v).
Proof.
  intros Hk Hx. unfold xor_window.
  assert (k < length data)%nat as Hlen by (eapply lookup_lt_Some; eassumption).
  replace (hi - lo)%nat with ((k - lo) + S (hi - S k))%nat by lia.
  rewrite seq_app. replace (lo + (k - lo))%nat with k by lia.
  simpl seq. rewrite !foldl_app. simpl foldl.
  rewrite !(foldl_xor_lookup_poke_ne data k v) by (rewrite elem_of_seq; lia).
  unfold poke. rewrite list_lookup_insert_eq by assumption. rewrite Hx. simpl.
  set (A := foldl _ 0 (seq lo (k - lo))).
  rewrite (foldl_xor_lookup_acc data _ (Z.lxor A v)).
  rewrite (foldl_xor_lookup_acc data _ (Z.lxor A x)).
  set (B := foldl _ 0 (seq (S k) (hi - S k))).
  xor_bits.
Qed.

Lemma poke_u8 (data : list Z) k v :
  Forall is_u8 data -> is_u8 v -> Forall is_u8 (poke k v data).
Proof. intros Hd Hv. unfold poke. apply Forall_insert; assumption. Qed.

Lemma poke_length (data : list Z) k v : length (poke k v data) = length data.
Proof. apply length_insert. Qed.

(** ** The report built by [write_attr] *)

Lemma length_report_bytes r :
  length (report_bytes r) = (9 + length (args r))%nat.
Proof. unfold report_bytes. simpl. rewrite length_app. simpl. lia. Qed.

Lemma sizeof_report_val : sizeof_report = 89.
Proof. reflexivity. Qed.

(** The members of the filled report, spelled out. *)
Lemma fill_report_fields p tid attr_id b0 b1 b2 :
  fill_report p tid attr_id b0 b1 b2
  = Report 0 (to_u8 tid) 0 0 5 3 1
      ([1; to_u8 attr_id; to_u8 (char_val p b0); to_u8 (char_val p b1);
        to_u8 (char_val p b2)] ++ replicate 75 0)
      0 0.
Proof. reflexivity. Qed.

Lemma Forall_u8_replicate_0 n : Forall is_u8 (replicate n 0).
Proof. apply Forall_replicate. unfold is_u8. lia. Qed.

Lemma fill_report_u8 p tid attr_id b0 b1 b2 :
  Forall is_u8 (report_bytes (fill_report p tid attr_id b0 b1 b2)).
Proof.
  rewrite fill_report_fields. unfold report_bytes.
  cbn [status transaction_id remaining_packets protocol_type args_len
       cmd_class cmd_id args crc _reserved].
  assert (is_u8 0 /\ is_u8 1 /\ is_u8 3 /\ is_u8 5) as (H0 & H1 & H3 & H5)
    by u8.
  repeat (apply Forall_app; split);
    repeat first [apply Forall_cons; split | apply Forall_nil];
    auto using to_u8_range, Forall_u8_replicate_0.
Qed.

Lemma fill_report_length p tid attr_id b0 b1 b2 :
  length (report_bytes (fill_report p tid attr_id b0 b1 b2)) = 89%nat.
Proof. reflexivity. Qed.

(** The checksum call inside [write_attr] returns, with the window
    [2 <= i < 87] folded. *)
Lemma fill_report_crc p tid attr_id b0 b1 b2 :
  report_crc p crc_fuel
    (report_bytes (fill_report p tid attr_id b0 b1 b2)) sizeof_report
  = Done (xor_window (report_bytes (fill_report p tid attr_id b0 b1 b2)) 2 87).
Proof.
  rewrite report_crc_window.
  - reflexivity.
  - apply fill_report_u8.
  - rewrite sizeof_report_val. lia.
  - rewrite fill_report_length, sizeof_report_val. lia.
  - unfold crc_fuel. rewrite sizeof_report_val. lia.
Qed.

(** A write of three bytes with memory available: the calls made and the
    value returned. *)
Lemma write_attr_sends p e attr_id b0 b1 b2 rest tr :
  kzalloc_ok e = true ->
  let r := sent_report p (to_u8 (random_byte e)) attr_id b0 b1 b2 in
  let rc := to_int (usb_result e (report_bytes r) sizeof_report) in
  write_attr p e attr_id (b0 :: b1 :: b2 :: rest) 3 tr
  = Done (transfer_result p rc 3,
          tr ++ [Ev_pr_info sizeof_report attr_id;
                 Ev_kzalloc sizeof_report true;
                 Ev_get_random_bytes (to_u8 (random_byte e));
                 Ev_usb_control_msg (report_bytes r) sizeof_report rc;
                 Ev_kfree]).
Proof.
  intros Hk r rc. unfold write_attr.
  rewrite bool_decide_false by (intros H; apply H; reflexivity).
  unfold mbind, M_bind, mret, M_ret, emit, kzalloc, get_random_bytes,
    read_char, usb_control_msg, mbind, M_bind, mret, M_ret, emit.
  rewrite Hk.
  cbn [lookup list_lookup].
  unfold mret, M_ret, lift.
  change (set_arg 4 (char_val p b2) _)
    with (fill_report p (to_u8 (random_byte e)) attr_id b0 b1 b2).
  rewrite fill_report_crc.
  fold (sent_report p (to_u8 (random_byte e)) attr_id b0 b1 b2).
  fold r. fold rc. unfold transfer_result.
  rewrite <- !app_assoc. simpl app.
  destruct (bool_decide (to_size_t p rc ≠ sizeof_report)); reflexivity.
Qed.

Lemma write_attr_einval p e attr_id buf count tr :
  count ≠ 3 -> write_attr p e attr_id buf count tr = Done (- EINVAL, tr).
Proof.
  intros Hc. unfold write_attr. rewrite bool_decide_true by assumption.
  unfold mret, M_ret. rewrite to_ssize_t_int; [reflexivity | unfold EINVAL; lia].
Qed.

Lemma write_attr_enomem p e attr_id buf tr :
  kzalloc_ok e = false ->
  write_attr p e attr_id buf 3 tr
  = Done (- ENOMEM,
          tr ++ [Ev_pr_info sizeof_report attr_id; Ev_kzalloc sizeof_report false]).
Proof.
  intros Hk. unfold write_attr.
  rewrite bool_decide_false by (intros H; apply H; reflexivity).
  unfold mbind, M_bind, mret, M_ret, emit, kzalloc, mbind, M_bind, mret,
    M_ret, emit.
  rewrite Hk, <- app_assoc. simpl app.
  rewrite to_ssize_t_int; [reflexivity | unfold ENOMEM; lia].
Qed.

(** ** How the transfer result is classified *)

Lemma to_size_t_int_eq p rc n :
  - 2 ^ 31 <= rc < 2 ^ 31 -> 0 <= n < 2 ^ 31 -> to_size_t p rc = n <-> rc = n.
Proof.
  intros Hrc Hn. split; [|intros ->; apply to_size_t_small; lia].
  destruct (Z.neg_nonneg_cases rc) as [Hneg | Hpos].
  - unfold to_size_t. intros H.
    assert (2 ^ 32 <= 2 ^ size_bits p) as Hw
      by (destruct (size_bits_cases p) as [-> | ->]; lia).
    replace rc with ((rc + 2 ^ size_bits p) + (-1) * 2 ^ size_bits p) in H by lia.
    rewrite Z.mod_add, Z.mod_small in H by lia. lia.
  - rewrite to_size_t_small by lia. auto.
Qed.

Lemma transfer_result_full p rc count :
  rc = sizeof_report -> transfer_result p rc count = to_ssize_t p count.
Proof.
  intros ->. unfold transfer_result.
  rewrite bool_decide_false; [reflexivity|].
  intros H. apply H. apply to_size_t_small. rewrite sizeof_report_val. lia.
Qed.

Lemma transfer_result_error p rc count :
  - 2 ^ 31 <= rc < 0 -> transfer_result p rc count = rc.
Proof.
  intros Hrc. unfold transfer_result.
  rewrite bool_decide_true.
  - destruct (Z.ltb_spec rc 0); [|lia]. apply to_ssize_t_int. lia.
  - intros H. apply to_size_t_int_eq in H; rewrite ?sizeof_report_val in *; lia.
Qed.

Lemma transfer_result_short p rc count :
  0 <= rc < 2 ^ 31 -> rc ≠ sizeof_report -> transfer_result p rc count = - EIO.
Proof.
  intros Hrc Hne. unfold transfer_result.
  rewrite bool_decide_true.
  - destruct (Z.ltb_spec rc 0); [lia|]. apply to_ssize_t_int. unfold EIO. lia.
  - intros H. apply to_size_t_int_eq in H; rewrite ?sizeof_report_val in *; lia.
Qed.

Lemma transfer_result_three_iff p rc :
  - 2 ^ 31 <= rc < 2 ^ 31 -> transfer_result p rc 3 = 3 <-> rc = sizeof_report.
Proof.
  intros Hrc. split.
  - intros H. destruct (decide (rc = sizeof_report)) as [|Hne]; [assumption|].
    destruct (Z.neg_nonneg_cases rc).
    + rewrite transfer_result_error in H by lia. lia.
    + rewrite transfer_result_short in H by (auto; lia). unfold EIO in H. lia.
  - intros H. rewrite transfer_result_full by assumption.
    apply to_ssize_t_int. lia.
Qed.

Lemma write_attr_run_sends p e attr_id b0 b1 b2 rest :
  kzalloc_ok e = true ->
  let tid := to_u8 (random_byte e) in
  let r := sent_report p tid attr_id b0 b1 b2 in
  let rc := to_int (usb_result e (report_bytes r) sizeof_report) in
  run (write_attr p e attr_id (b0 :: b1 :: b2 :: rest) 3)
  = Done (transfer_result p rc 3, send_trace attr_id tid (report_bytes r) rc).
Proof. intros Hk. unfold run. apply (write_attr_sends p e _ _ _ _ _ [] Hk). Qed.

Lemma fill_report_inv p tid attr_id b0 b1 b2 :
  report_inv (fill_report p tid attr_id b0 b1 b2).
Proof.
  rewrite fill_report_fields. unfold report_inv. simpl.
  repeat split; try reflexivity.
  intros k Hk. do 5 (destruct k as [|k]; [lia|]).
  apply (lookup_replicate_2 75 0 k). lia.
Qed.

Lemma set_crc_inv c r : report_inv r -> report_inv (set_crc c r).
Proof. unfold report_inv. destruct r; simpl. auto. Qed.

Lemma report_bytes_window r :
  length (args r) = ARGS_SIZE ->
  xor_window (report_bytes r) 2 87
  = xor_all ([remaining_packets r; protocol_type r; args_len r; cmd_class r;
              cmd_id r] ++ args r).
Proof.
  intros Hlen. rewrite xor_window_slice
    by (rewrite length_report_bytes, Hlen; unfold ARGS_SIZE; lia).
  unfold report_bytes. simpl.
  rewrite take_app_length' by (rewrite Hlen; reflexivity). reflexivity.
Qed.

(** The checksum of the report does not look at the checksum member. *)
Lemma sent_report_crc p tid attr_id b0 b1 b2 fuel :
  86 <= Z.of_nat fuel ->
  let r := sent_report p tid attr_id b0 b1 b2 in
  report_crc p fuel (report_bytes r) sizeof_report = Done (crc r).
Proof.
  intros Hfuel r.
  assert (is_u8 (xor_window (report_bytes (fill_report p tid attr_id b0 b1 b2)) 2 87))
    as Hu by apply xor_window_u8, fill_report_u8.
  assert (report_bytes r
          = poke 87 (crc r) (report_bytes (fill_report p tid attr_id b0 b1 b2)))
    as Hr by reflexivity.
  assert (crc r = xor_window (report_bytes (fill_report p tid attr_id b0 b1 b2)) 2 87)
    as Hc by (unfold r, sent_report; simpl; apply to_u8_small, Hu).
  rewrite report_crc_window.
  - change (Z.to_nat (sizeof_report - 2)) with 87%nat.
    rewrite Hr, xor_window_poke_outside by lia. rewrite Hc. reflexivity.
  - rewrite Hr. apply poke_u8; [apply fill_report_u8 | rewrite Hc; exact Hu].
  - rewrite sizeof_report_val. lia.
  - rewrite Hr, poke_length, fill_report_length, sizeof_report_val. lia.
  - rewrite sizeof_report_val. lia.
Qed.

(** * The claims *)

(** C1: [report_crc], given the bytes of a report and its size [count],
    returns the XOR-fold of the bytes at the indices [2 <= i < count - 2];
    on the 89-byte report that is the XOR of bytes 2 to 86: of
    [remaining_packets], [protocol_type], [args_len], [cmd_class], [cmd_id]
    and [args], leaving out [status], [transaction_id], [crc] and
    [_reserved]. *)
Theorem report_crc_xor_fold p fuel (data : list Z) count :
  Forall is_u8 data -> 2 <= count <= 257 ->
  count <= Z.of_nat (length data) -> Z.max 1 (count - 3) <= Z.of_nat fuel ->
  report_crc p fuel data count
  = Done (xor_window data 2 (Z.to_nat (count - 2)))
  /\ forall r,
       data = report_bytes r -> length (args r) = ARGS_SIZE ->
       count = sizeof_report ->
       report_crc p fuel data count = Done (xor_window data 2 87)
       /\ xor_window data 2 87
          = xor_all ([remaining_packets r; protocol_type r; args_len r;
                      cmd_class r; cmd_id r] ++ args r).
Proof.
  intros Hd Hc Hlen Hfuel. split.
  - apply report_crc_window; assumption.
  - intros r -> Hargs ->. split.
    + rewrite report_crc_window by assumption. reflexivity.
    + apply report_bytes_window, Hargs.
Qed.

Lemma report_crc_xor_fold_witness :
  let r := sent_report lp64_signed 0x5a ATTR_LOGO_COLOR 0x10 0x20 0xf0 in
  Forall is_u8 (report_bytes r) /\ 2 <= 89 <= 257 /\
  89 <= Z.of_nat (length (report_bytes r)) /\
  Z.max 1 (89 - 3) <= Z.of_nat 86 /\
  report_crc lp64_signed 86 (report_bytes r) 89
  = Done (xor_window (report_bytes r) 2 87) /\
  xor_window (report_bytes r) 2 87
  = xor_all ([remaining_packets r; protocol_type r; args_len r; cmd_class r;
              cmd_id r] ++ args r) /\
  xor_window (report_bytes r) 2 87 = 0xc2.
Proof.
  intros r.
  assert (Forall is_u8 (report_bytes r)) as Hd.
  { cbv -[Z.le Z.lt]. repeat constructor; lia. }
  assert (89 <= Z.of_nat (length (report_bytes r))) as Hlen by (vm_compute; discriminate).
  assert (Z.max 1 (89 - 3) <= Z.of_nat 86) as Hfuel by (vm_compute; discriminate).
  assert (2 <= 89 <= 257) as Hc by lia.
  assert (xor_window (report_bytes r) 2 87 = 0xc2) as Hv by (vm_compute; reflexivity).
  destruct (report_crc_xor_fold lp64_signed 86 (report_bytes r) 89 Hd Hc Hlen Hfuel)
    as [Hcrc Hrep].
  destruct (Hrep r eq_refl eq_refl eq_refl) as [_ Hfields].
  exact (conj Hd (conj Hc (conj Hlen (conj Hfuel (conj Hcrc (conj Hfields Hv)))))).
Defined.

(** C2: for every colour [(r, g, b)], a write to the logo attribute sends
    a report with [cmd_class = 0x03], [cmd_id = 0x01], [args_len = 5],
    [args = [1; 0x04; r; g; b; 0; ...; 0]], 89 bytes long. *)
Theorem logo_report_shape p e r g b :
  is_u8 r -> is_u8 g -> is_u8 b -> kzalloc_ok e = true ->
  exists rep tid rc ret,
    run (rzchroma_attr_write_logo_color p e [r; g; b] 3)
    = Done (ret, send_trace ATTR_LOGO_COLOR tid (report_bytes rep) rc)
    /\ cmd_class rep = 0x03 /\ cmd_id rep = 0x01 /\ args_len rep = 5
    /\ args rep = [1; 0x04; r; g; b] ++ replicate 75 0
    /\ length (report_bytes rep) = 89%nat /\ sizeof_report = 89.
Proof.
  intros Hr Hg Hb Hk. unfold rzchroma_attr_write_logo_color.
  eexists _, _, _, _. split; [apply write_attr_run_sends, Hk|].
  unfold sent_report. rewrite fill_report_fields. simpl.
  rewrite !to_u8_char_val by assumption.
  repeat split; reflexivity.
Qed.

Lemma logo_report_shape_witness :
  let e := Env true 0x5a (fun _ size => size) in
  is_u8 0x10 /\ is_u8 0x20 /\ is_u8 0x30 /\ kzalloc_ok e = true /\
  exists rep tid rc ret,
    run (rzchroma_attr_write_logo_color lp64_signed e [0x10; 0x20; 0x30] 3)
    = Done (ret, send_trace ATTR_LOGO_COLOR tid (report_bytes rep) rc)
    /\ cmd_class rep = 0x03 /\ cmd_id rep = 0x01 /\ args_len rep = 5
    /\ args rep = [1; 0x04; 0x10; 0x20; 0x30] ++ replicate 75 0
    /\ length (report_bytes rep) = 89%nat /\ sizeof_report = 89.
Proof.
  intros e.
  assert (is_u8 0x10) as H1 by u8.
  assert (is_u8 0x20) as H2 by u8.
  assert (is_u8 0x30) as H3 by u8.
  exact (conj H1 (conj H2 (conj H3 (conj eq_refl
    (logo_report_shape lp64_signed e 0x10 0x20 0x30 H1 H2 H3 eq_refl))))).
Defined.

(** C9: for every colour, a write to the scroll-wheel attribute sends a
    report whose [args[1]], the LED id, is [0x01]. *)
Theorem wheel_report_target_code p e r g b :
  kzalloc_ok e = true ->
  exists rep tid rc ret,
    run (rzchroma_attr_write_wheel_color p e [r; g; b] 3)
    = Done (ret, send_trace ATTR_WHEEL_COLOR tid (report_bytes rep) rc)
    /\ args rep !! 1%nat = Some 0x01
    /\ report_bytes rep !! 8%nat = Some 0x01.
Proof.
  intros Hk. unfold rzchroma_attr_write_wheel_color.
  eexists _, _, _, _. split; [apply write_attr_run_sends, Hk|].
  unfold sent_report. rewrite fill_report_fields. split; reflexivity.
Qed.

Lemma wheel_report_target_code_witness :
  let e := Env true 0xc3 (fun _ size => size) in
  kzalloc_ok e = true /\
  exists rep tid rc ret,
    run (rzchroma_attr_write_wheel_color ilp32_unsigned e [0xff; 0x80; 0x00] 3)
    = Done (ret, send_trace ATTR_WHEEL_COLOR tid (report_bytes rep) rc)
    /\ args rep !! 1%nat = Some 0x01
    /\ report_bytes rep !! 8%nat = Some 0x01.
Proof.
  intros e.
  exact (conj eq_refl
    (wheel_report_target_code ilp32_unsigned e 0xff 0x80 0x00 eq_refl)).
Defined.

(** C4: a write whose byte count is not 3 returns [-EINVAL] having made no
    call at all: nothing allocated, no report built, no transfer; with a
    count of exactly 3 the check passes and the write goes on to allocate
    the report and, given memory, to build and send it. *)
Theorem write_attr_rejects_bad_count p e attr_id (buf : list Z) count :
  count = Z.of_nat (length buf) ->
  (count ≠ 3 -> run (write_attr p e attr_id buf count) = Done (- EINVAL, []))
  /\ (count = 3 ->
      exists ret rest,
        run (write_attr p e attr_id buf count)
        = Done (ret, Ev_pr_info sizeof_report attr_id
                       :: Ev_kzalloc sizeof_report (kzalloc_ok e) :: rest)
        /\ (kzalloc_ok e = true ->
            exists tid data rc,
              rest = [Ev_get_random_bytes tid;
                      Ev_usb_control_msg data sizeof_report rc; Ev_kfree])).
Proof.
  intros Hlen. split.
  - intros Hc. unfold run. apply write_attr_einval, Hc.
  - intros ->.
    destruct buf as [|b0 [|b1 [|b2 [|b3 rest]]]]; cbn [length] in Hlen; try lia.
    destruct (kzalloc_ok e) eqn:Hk.
    + eexists _, _. split; [apply write_attr_run_sends, Hk|].
      intros _. eexists _, _, _. reflexivity.
    + eexists _, _. split; [apply (write_attr_enomem p e _ _ [] Hk)|].
      discriminate.
Qed.

Lemma write_attr_rejects_bad_count_witness :
  let e := Env true 0x11 (fun _ size => size) in
  2 = Z.of_nat (length [0xaa; 0xbb]) /\
  4 = Z.of_nat (length [0xaa; 0xbb; 0xcc; 0xdd]) /\
  run (write_attr lp64_signed e ATTR_LOGO_COLOR [0xaa; 0xbb] 2)
  = Done (- EINVAL, []) /\
  run (write_attr lp64_signed e ATTR_WHEEL_COLOR [0xaa; 0xbb; 0xcc; 0xdd] 4)
  = Done (- EINVAL, []) /\
  3 = Z.of_nat (length [0xaa; 0xbb; 0xcc]) /\
  exists ret rest,
    run (write_attr lp64_signed e ATTR_LOGO_COLOR [0xaa; 0xbb; 0xcc] 3)
    = Done (ret, Ev_pr_info sizeof_report ATTR_LOGO_COLOR
                   :: Ev_kzalloc sizeof_report true :: rest)
    /\ (kzalloc_ok e = true ->
        exists tid data rc,
          rest = [Ev_get_random_bytes tid;
                  Ev_usb_control_msg data sizeof_report rc; Ev_kfree]).
Proof.
  intros e.
  assert (2 ≠ 3) as H2 by lia. assert (4 ≠ 3) as H4 by lia.
  exact (conj eq_refl (conj eq_refl (conj
    (proj1 (write_attr_rejects_bad_count lp64_signed e ATTR_LOGO_COLOR
              [0xaa; 0xbb] 2 eq_refl) H2)
    (conj
      (proj1 (write_attr_rejects_bad_count lp64_signed e ATTR_WHEEL_COLOR
                [0xaa; 0xbb; 0xcc; 0xdd] 4 eq_refl) H4)
      (conj eq_refl
        (proj2 (write_attr_rejects_bad_count lp64_signed e ATTR_LOGO_COLOR
                  [0xaa; 0xbb; 0xcc] 3 eq_refl) eq_refl)))))).
Defined.

(** C5: a write of three bytes returns 3 exactly when [usb_control_msg]
    reports 89 bytes transferred; a negative result is returned as it is,
    and a byte count other than 89 becomes [-EIO]. *)
Theorem write_attr_transfer_mapping p e attr_id b0 b1 b2 :
  kzalloc_ok e = true ->
  exists tid data rc ret,
    run (write_attr p e attr_id [b0; b1; b2] 3)
    = Done (ret, send_trace attr_id tid data rc)
    /\ rc = to_int (usb_result e data sizeof_report)
    /\ (ret = 3 <-> rc = 89)
    /\ (rc < 0 -> ret = rc)
    /\ (0 <= rc -> rc ≠ 89 -> ret = - EIO).
Proof.
  intros Hk. eexists _, _, _, _.
  split; [apply write_attr_run_sends, Hk|].
  set (rc := to_int _). pose proof (to_int_range (usb_result e
    (report_bytes (sent_report p (to_u8 (random_byte e)) attr_id b0 b1 b2))
    sizeof_report)) as Hrc. fold rc in Hrc.
  split; [reflexivity|]. split; [|split].
  - rewrite <- sizeof_report_val. apply transfer_result_three_iff, Hrc.
  - intros Hneg. apply transfer_result_error. lia.
  - intros Hpos Hne. apply transfer_result_short; [lia|].
    rewrite sizeof_report_val. exact Hne.
Qed.

Lemma write_attr_transfer_mapping_witness :
  let full := Env true 0x42 (fun _ size => size) in
  let short := Env true 0x42 (fun _ _ => 88) in
  let failed := Env true 0x42 (fun _ _ => -110) in
  kzalloc_ok full = true /\ kzalloc_ok short = true /\ kzalloc_ok failed = true /\
  (exists tid data rc ret,
     run (write_attr lp64_signed full ATTR_LOGO_COLOR [0x10; 0x20; 0x30] 3)
     = Done (ret, send_trace ATTR_LOGO_COLOR tid data rc)
     /\ rc = to_int (usb_result full data sizeof_report)
     /\ (ret = 3 <-> rc = 89) /\ (rc < 0 -> ret = rc)
     /\ (0 <= rc -> rc ≠ 89 -> ret = - EIO)) /\
  (exists tid data rc ret,
     run (write_attr lp64_signed short ATTR_LOGO_COLOR [0x10; 0x20; 0x30] 3)
     = Done (ret, send_trace ATTR_LOGO_COLOR tid data rc)
     /\ rc = to_int (usb_result short data sizeof_report)
     /\ (ret = 3 <-> rc = 89) /\ (rc < 0 -> ret = rc)
     /\ (0 <= rc -> rc ≠ 89 -> ret = - EIO)) /\
  (exists tid data rc ret,
     run (write_attr lp64_signed failed ATTR_LOGO_COLOR [0x10; 0x20; 0x30] 3)
     = Done (ret, send_trace ATTR_LOGO_COLOR tid data rc)
     /\ rc = to_int (usb_result failed data sizeof_report)
     /\ (ret = 3 <-> rc = 89) /\ (rc < 0 -> ret = rc)
     /\ (0 <= rc -> rc ≠ 89 -> ret = - EIO)).
Proof.
  intros full short failed.
  exact (conj eq_refl (conj eq_refl (conj eq_refl (conj
    (write_attr_transfer_mapping lp64_signed full ATTR_LOGO_COLOR
       0x10 0x20 0x30 eq_refl)
    (conj
      (write_attr_transfer_mapping lp64_signed short ATTR_LOGO_COLOR
         0x10 0x20 0x30 eq_refl)
      (write_attr_transfer_mapping lp64_signed failed ATTR_LOGO_COLOR
         0x10 0x20 0x30 eq_refl)))))).
Defined.

(** C8: when [kzalloc] fails, the write returns [-ENOMEM] and
    [usb_control_msg] is not called. *)
Theorem write_attr_allocation_failure p e attr_id (buf : list Z) :
  kzalloc_ok e = false ->
  exists tr,
    run (write_attr p e attr_id buf 3) = Done (- ENOMEM, tr)
    /\ tr = [Ev_pr_info sizeof_report attr_id; Ev_kzalloc sizeof_report false]
    /\ Forall (fun ev => is_usb_event ev = false) tr.
Proof.
  intros Hk. eexists. split; [apply (write_attr_enomem p e _ _ [] Hk)|].
  split; [reflexivity|]. repeat constructor.
Qed.

Lemma write_attr_allocation_failure_witness :
  let e := Env false 0x42 (fun _ size => size) in
  kzalloc_ok e = false /\
  exists tr,
    run (write_attr lp64_signed e ATTR_WHEEL_COLOR [0x01; 0x02; 0x03] 3)
    = Done (- ENOMEM, tr)
    /\ tr = [Ev_pr_info sizeof_report ATTR_WHEEL_COLOR;
             Ev_kzalloc sizeof_report false]
    /\ Forall (fun ev => is_usb_event ev = false) tr.
Proof.
  intros e.
  exact (conj eq_refl
    (write_attr_allocation_failure lp64_signed e ATTR_WHEEL_COLOR
       [0x01; 0x02; 0x03] eq_refl)).
Defined.

(** C7: the report a write builds has [status], [remaining_packets],
    [protocol_type] and [_reserved] zero, [args_len = 5] and
    [args[5..79]] zero, both when [report_crc] is called on it and when it
    is handed to [usb_control_msg]. *)
Theorem write_attr_report_invariant p e attr_id b0 b1 b2 (rest : list Z) :
  kzalloc_ok e = true ->
  exists filled c tid rc ret,
    run (write_attr p e attr_id (b0 :: b1 :: b2 :: rest) 3)
    = Done (ret, send_trace attr_id tid (report_bytes (set_crc c filled)) rc)
    /\ report_crc p crc_fuel (report_bytes filled) sizeof_report = Done c
    /\ report_inv filled
    /\ report_inv (set_crc c filled).
Proof.
  intros Hk.
  exists (fill_report p (to_u8 (random_byte e)) attr_id b0 b1 b2).
  eexists _, _, _, _. split; [apply write_attr_run_sends, Hk|].
  split; [apply fill_report_crc|].
  split; [|apply set_crc_inv]; apply fill_report_inv.
Qed.

Lemma write_attr_report_invariant_witness :
  let e := Env true 0x99 (fun _ size => size) in
  kzalloc_ok e = true /\
  exists filled c tid rc ret,
    run (write_attr ilp32_unsigned e ATTR_LOGO_COLOR [0xde; 0xad; 0xbe] 3)
    = Done (ret, send_trace ATTR_LOGO_COLOR tid
                   (report_bytes (set_crc c filled)) rc)
    /\ report_crc ilp32_unsigned crc_fuel (report_bytes filled) sizeof_report
       = Done c
    /\ report_inv filled
    /\ report_inv (set_crc c filled).
Proof.
  intros e.
  exact (conj eq_refl
    (write_attr_report_invariant ilp32_unsigned e ATTR_LOGO_COLOR
       0xde 0xad 0xbe [] eq_refl)).
Defined.

(** C6: on an 89-byte report, overwriting [status] (byte 0), [crc]
    (byte 87) or [_reserved] (byte 88) leaves the checksum as it was;
    overwriting a byte at an index in [2, 87) with a different value
    changes the checksum. *)
Theorem report_crc_mutation p fuel (data : list Z) (k : nat) v :
  length data = 89%nat -> Forall is_u8 data -> is_u8 v ->
  86 <= Z.of_nat fuel ->
  (k = 0%nat \/ k = 87%nat \/ k = 88%nat ->
   exists c,
     report_crc p fuel data sizeof_report = Done c
     /\ report_crc p fuel (poke k v data) sizeof_report = Done c)
  /\ ((2 <= k < 87)%nat -> data !! k ≠ Some v ->
      exists c c',
        report_crc p fuel data sizeof_report = Done c
        /\ report_crc p fuel (poke k v data) sizeof_report = Done c'
        /\ c ≠ c').
Proof.
  intros Hlen Hd Hv Hfuel.
  assert (report_crc p fuel data sizeof_report = Done (xor_window data 2 87))
    as Hcrc.
  { rewrite report_crc_window; rewrite ?sizeof_report_val, ?Hlen;
      [reflexivity | assumption | lia..]. }
  assert (report_crc p fuel (poke k v data) sizeof_report
          = Done (xor_window (poke k v data) 2 87)) as Hcrc'.
  { rewrite report_crc_window;
      rewrite ?sizeof_report_val, ?poke_length, ?Hlen;
      [reflexivity | apply poke_u8; assumption | lia..]. }
  split.
  - intros Hk. exists (xor_window data 2 87). split; [exact Hcrc|].
    rewrite Hcrc', xor_window_poke_outside by lia. reflexivity.
  - intros Hk Hne.
    destruct (lookup_lt_is_Some_2 data k) as [x Hx]; [lia|].
    eexists _, _. split; [exact Hcrc|]. split; [exact Hcrc'|].
    rewrite (xor_window_poke_inside data k v 2 87 x Hk Hx).
    intros Heq. apply Hne. rewrite Hx. f_equal.
    rewrite <- (Z.lxor_0_r (xor_window data 2 87)) in Heq at 1.
    apply lxor_cancel_l in Heq. symmetry in Heq.
    apply Z.lxor_eq in Heq. exact Heq.
Qed.

Lemma report_crc_mutation_witness :
  let data := report_bytes
                (sent_report lp64_signed 0x5a ATTR_LOGO_COLOR 0x10 0x20 0x30) in
  length data = 89%nat /\ Forall is_u8 data /\ is_u8 0xff /\
  86 <= Z.of_nat crc_fuel /\
  (exists c,
     report_crc lp64_signed crc_fuel data sizeof_report = Done c
     /\ report_crc lp64_signed crc_fuel (poke 87 0xff data) sizeof_report
        = Done c) /\
  (exists c c',
     report_crc lp64_signed crc_fuel data sizeof_report = Done c
     /\ report_crc lp64_signed crc_fuel (poke 9 0xff data) sizeof_report
        = Done c'
     /\ c ≠ c').
Proof.
  intros data.
  assert (Forall is_u8 data) as Hd.
  { cbv -[Z.le Z.lt]. repeat constructor; lia. }
  assert (is_u8 0xff) as Hv by u8.
  assert (86 <= Z.of_nat crc_fuel) as Hfuel by (vm_compute; discriminate).
  assert (data !! 9%nat ≠ Some 0xff) as Hne by (vm_compute; discriminate).
  assert (2 <= 9 < 87)%nat as Hk by lia.
  exact (conj eq_refl (conj Hd (conj Hv (conj Hfuel (conj
    (proj1 (report_crc_mutation lp64_signed crc_fuel data 87 0xff
              eq_refl Hd Hv Hfuel) (or_intror (or_introl eq_refl)))
    (proj2 (report_crc_mutation lp64_signed crc_fuel data 9 0xff
              eq_refl Hd Hv Hfuel) Hk Hne)))))).
Defined.

(** C10: [report_crc] returns for every [count] with [2 <= count <= 257],
    89 among them; its counter is 8 bits wide, so for [count < 2] (where
    [count - 2] wraps around) and for [count > 257] the loop condition
    stays true and the function never returns. *)
Theorem report_crc_termination p (data : list Z) count :
  0 <= count < 2 ^ size_bits p ->
  (2 <= count <= 257 -> count <= Z.of_nat (length data) ->
   exists c, forall fuel,
     Z.max 1 (count - 3) <= Z.of_nat fuel ->
     report_crc p fuel data count = Done c)
  /\ (count < 2 \/ 257 < count ->
      (forall fuel c, report_crc p fuel data count ≠ Done c)
      /\ ((256 <= length data)%nat ->
          forall fuel, report_crc p fuel data count = OutOfFuel)).
Proof.
  intros Hrange. split.
  - intros Hc Hlen. eexists. intros fuel Hfuel.
    apply report_crc_returns; assumption.
  - intros Hc. pose proof (report_crc_bound_large p count Hrange Hc) as Hb.
    assert (is_u8 2) as H2 by u8. split.
    + intros fuel c. apply report_crc_loop_never_done; assumption.
    + intros Hlen fuel. apply report_crc_loop_spins; assumption.
Qed.

Lemma report_crc_termination_witness :
  let report := report_bytes
                  (sent_report lp64_signed 0x5a ATTR_LOGO_COLOR 0x10 0x20 0x30) in
  let big := replicate 258 0x00 in
  0 <= 89 < 2 ^ size_bits lp64_signed /\
  0 <= 258 < 2 ^ size_bits lp64_signed /\
  0 <= 1 < 2 ^ size_bits ilp32_unsigned /\
  (exists c, forall fuel,
     Z.max 1 (89 - 3) <= Z.of_nat fuel ->
     report_crc lp64_signed fuel report 89 = Done c) /\
  (forall fuel, report_crc lp64_signed fuel big 258 = OutOfFuel) /\
  (forall fuel c, report_crc ilp32_unsigned fuel [0x00] 1 ≠ Done c).
Proof.
  intros report big.
  assert (0 <= 89 < 2 ^ size_bits lp64_signed) as H89
    by (change (size_bits lp64_signed) with 64; lia).
  assert (0 <= 258 < 2 ^ size_bits lp64_signed) as H258
    by (change (size_bits lp64_signed) with 64; lia).
  assert (0 <= 1 < 2 ^ size_bits ilp32_unsigned) as H1
    by (change (size_bits ilp32_unsigned) with 32; lia).
  assert (2 <= 89 <= 257) as Hin by lia.
  assert (89 <= Z.of_nat (length report)) as Hlen by (vm_compute; discriminate).
  assert (256 <= length big)%nat as Hbig
    by (unfold big; rewrite length_replicate; lia).
  assert (257 < 258) as Hhi by lia.
  assert (1 < 2) as Hlo by lia.
  exact (conj H89 (conj H258 (conj H1 (conj
    (proj1 (report_crc_termination lp64_signed report 89 H89) Hin Hlen)
    (conj
      (proj2 (proj2 (report_crc_termination lp64_signed big 258 H258)
                (or_intror Hhi)) Hbig)
      (proj1 (proj2 (report_crc_termination ilp32_unsigned [0x00] 1 H1)
                (or_introl Hlo)))))))).
Defined.

Lemma fill_report_bytes_tid p tid tid' attr_id b0 b1 b2 :
  report_bytes (fill_report p tid' attr_id b0 b1 b2)
  = poke 1 (to_u8 tid') (report_bytes (fill_report p tid attr_id b0 b1 b2)).
Proof. reflexivity. Qed.

Lemma sent_report_crc_tid p tid tid' attr_id b0 b1 b2 :
  crc (sent_report p tid' attr_id b0 b1 b2)
  = crc (sent_report p tid attr_id b0 b1 b2).
Proof.
  unfold sent_report. cbn [crc set_crc].
  rewrite (fill_report_bytes_tid p tid tid').
  rewrite xor_window_poke_outside by lia. reflexivity.
Qed.

Lemma sent_report_bytes_tid p tid tid' attr_id b0 b1 b2 :
  report_bytes (sent_report p tid' attr_id b0 b1 b2)
  = poke 1 (to_u8 tid') (report_bytes (sent_report p tid attr_id b0 b1 b2)).
Proof.
  unfold sent_report. cbn zeta.
  replace (xor_window (report_bytes (fill_report p tid' attr_id b0 b1 b2)) 2 87)
    with (xor_window (report_bytes (fill_report p tid attr_id b0 b1 b2)) 2 87).
  - generalize (xor_window (report_bytes (fill_report p tid attr_id b0 b1 b2)) 2 87).
    intros c. rewrite !fill_report_fields. reflexivity.
  - rewrite (fill_report_bytes_tid p tid tid').
    symmetry. apply xor_window_poke_outside. lia.
Qed.

Lemma report_bytes_lookup_tid r :
  report_bytes r !! 1%nat = Some (transaction_id r).
Proof. reflexivity. Qed.

Lemma report_bytes_lookup_crc r :
  length (args r) = ARGS_SIZE -> report_bytes r !! 87%nat = Some (crc r).
Proof.
  intros Hlen. unfold report_bytes.
  rewrite lookup_app_r by (simpl; lia). simpl length.
  rewrite lookup_app_r by (rewrite Hlen; unfold ARGS_SIZE; lia).
  rewrite Hlen. reflexivity.
Qed.

Lemma sent_report_args_length p tid attr_id b0 b1 b2 :
  length (args (sent_report p tid attr_id b0 b1 b2)) = ARGS_SIZE.
Proof. unfold sent_report. rewrite fill_report_fields. reflexivity. Qed.

Lemma sent_report_tid p tid attr_id b0 b1 b2 :
  transaction_id (sent_report p tid attr_id b0 b1 b2) = to_u8 tid.
Proof. unfold sent_report. rewrite fill_report_fields. reflexivity. Qed.

(** C3 (as the code has it): two writes of the same colour to the same
    LED send reports that differ at most in the transaction_id byte
    (index 1), and the checksums computed over the two reports are equal,
    because [report_crc] starts at index 2 and so leaves transaction_id
    out. *)
Theorem transaction_id_outside_checksum p e1 e2 attr_id b0 b1 b2 :
  kzalloc_ok e1 = true -> kzalloc_ok e2 = true ->
  exists tid1 d1 rc1 ret1 tid2 d2 rc2 ret2 c,
    run (write_attr p e1 attr_id [b0; b1; b2] 3)
    = Done (ret1, send_trace attr_id tid1 d1 rc1)
    /\ run (write_attr p e2 attr_id [b0; b1; b2] 3)
       = Done (ret2, send_trace attr_id tid2 d2 rc2)
    /\ d1 !! 1%nat = Some tid1 /\ d2 = poke 1 tid2 d1
    /\ report_crc p crc_fuel d1 sizeof_report = Done c
    /\ report_crc p crc_fuel d2 sizeof_report = Done c
    /\ d1 !! 87%nat = Some c /\ d2 !! 87%nat = Some c.
Proof.
  intros Hk1 Hk2.
  set (t1 := to_u8 (random_byte e1)). set (t2 := to_u8 (random_byte e2)).
  set (r1 := sent_report p t1 attr_id b0 b1 b2).
  set (r2 := sent_report p t2 attr_id b0 b1 b2).
  assert (86 <= Z.of_nat crc_fuel) as Hfuel
    by (unfold crc_fuel; rewrite sizeof_report_val; lia).
  assert (to_u8 t1 = t1 /\ to_u8 t2 = t2) as [Ht1 Ht2]
    by (split; apply to_u8_small, to_u8_range).
  exists t1, (report_bytes r1),
    (to_int (usb_result e1 (report_bytes r1) sizeof_report)),
    (transfer_result p (to_int (usb_result e1 (report_bytes r1) sizeof_report)) 3),
    t2, (report_bytes r2),
    (to_int (usb_result e2 (report_bytes r2) sizeof_report)),
    (transfer_result p (to_int (usb_result e2 (report_bytes r2) sizeof_report)) 3),
    (crc r1).
  split; [apply write_attr_run_sends, Hk1|].
  split; [apply write_attr_run_sends, Hk2|].
  split; [rewrite report_bytes_lookup_tid; unfold r1;
          rewrite sent_report_tid; congruence|].
  split.
  { unfold r2. rewrite (sent_report_bytes_tid p t1 t2), Ht2. reflexivity. }
  split; [apply sent_report_crc, Hfuel|].
  split.
  { unfold r2. rewrite (sent_report_crc p t2) by exact Hfuel.
    rewrite (sent_report_crc_tid p t1 t2). reflexivity. }
  split; [apply report_bytes_lookup_crc, sent_report_args_length|].
  rewrite report_bytes_lookup_crc by apply sent_report_args_length.
  unfold r2. rewrite (sent_report_crc_tid p t1 t2). reflexivity.
Qed.

Lemma transaction_id_outside_checksum_witness :
  let e1 := Env true 0x00 (fun _ size => size) in
  let e2 := Env true 0x01 (fun _ size => size) in
  kzalloc_ok e1 = true /\ kzalloc_ok e2 = true /\
  exists tid1 d1 rc1 ret1 tid2 d2 rc2 ret2 c,
    run (write_attr lp64_signed e1 ATTR_LOGO_COLOR [0x10; 0x20; 0x30] 3)
    = Done (ret1, send_trace ATTR_LOGO_COLOR tid1 d1 rc1)
    /\ run (write_attr lp64_signed e2 ATTR_LOGO_COLOR [0x10; 0x20; 0x30] 3)
       = Done (ret2, send_trace ATTR_LOGO_COLOR tid2 d2 rc2)
    /\ d1 !! 1%nat = Some tid1 /\ d2 = poke 1 tid2 d1
    /\ report_crc lp64_signed crc_fuel d1 sizeof_report = Done c
    /\ report_crc lp64_signed crc_fuel d2 sizeof_report = Done c
    /\ d1 !! 87%nat = Some c /\ d2 !! 87%nat = Some c.
Proof.
  intros e1 e2.
  exact (conj eq_refl (conj eq_refl
    (transaction_id_outside_checksum lp64_signed e1 e2 ATTR_LOGO_COLOR
       0x10 0x20 0x30 eq_refl eq_refl))).
Defined.

(** C3 as stated fails: the same colour written to the logo LED with
    transaction ids 0x00 and 0x01 gives two reports that differ in byte 1
    only, and both checksums are 0x02. *)
Lemma transaction_id_checksum_counterexample :
  let e1 := Env true 0x00 (fun _ size => size) in
  let e2 := Env true 0x01 (fun _ size => size) in
  let d1 := report_bytes
              (sent_report lp64_signed 0x00 ATTR_LOGO_COLOR 0x10 0x20 0x30) in
  let d2 := report_bytes
              (sent_report lp64_signed 0x01 ATTR_LOGO_COLOR 0x10 0x20 0x30) in
  run (write_attr lp64_signed e1 ATTR_LOGO_COLOR [0x10; 0x20; 0x30] 3)
  = Done (3, send_trace ATTR_LOGO_COLOR 0x00 d1 89)
  /\ run (write_attr lp64_signed e2 ATTR_LOGO_COLOR [0x10; 0x20; 0x30] 3)
     = Done (3, send_trace ATTR_LOGO_COLOR 0x01 d2 89)
  /\ d1 !! 1%nat = Some 0x00 /\ d2 !! 1%nat = Some 0x01
  /\ d2 = poke 1 0x01 d1
  /\ report_crc lp64_signed crc_fuel d1 sizeof_report = Done 0x02
  /\ report_crc lp64_signed crc_fuel d2 sizeof_report = Done 0x02
  /\ ~ (report_crc lp64_signed crc_fuel d1 sizeof_report
        ≠ report_crc lp64_signed crc_fuel d2 sizeof_report).
Proof.
  intros e1 e2 d1 d2.
  repeat (split; [vm_compute; reflexivity|]).
  intros H. apply H. vm_compute. reflexivity.
Qed.

(** * Further properties of the checksum *)

Lemma report_crc_loop_u8 p data bound fuel :
  forall i c v,
    is_u8 c -> report_crc_loop p data bound fuel i c = Done v -> is_u8 v.
Proof.
  induction fuel as [|fuel IH]; intros i c v Hc; simpl; [discriminate|].
  destruct (i <? bound).
  - destruct (data !! Z.to_nat i); [|discriminate].
    apply IH, to_u8_range.
  - intros [= <-]. exact Hc.
Qed.

(** Reading past the end of the buffer: the loop gets to the first index
    the buffer does not have. *)
Lemma report_crc_loop_fault p (data : list Z) bound n :
  forall fuel i c,
    0 <= i -> i + Z.of_nat n < bound -> bound <= 255 ->
    Z.of_nat (length data) <= i + Z.of_nat n -> (n < fuel)%nat ->
    report_crc_loop p data bound fuel i c = Fault.
Proof.
  induction n as [|n IH]; intros fuel i c Hi Hn Hb Hlen Hfuel;
    (destruct fuel as [|fuel]; [lia|]); simpl;
    (destruct (Z.ltb_spec i bound); [|lia]).
  - rewrite lookup_ge_None_2 by lia. reflexivity.
  - destruct (data !! Z.to_nat i); [|reflexivity].
    rewrite (to_u8_small (i + 1)) by u8. apply IH; lia.
Qed.

(** X1: on a buffer of bytes, the checksum does not depend on the width
    of [size_t] or on whether plain [char] is signed. *)
Theorem report_crc_platform_independent p q fuel (data : list Z) count :
  Forall is_u8 data -> 2 <= count <= 257 ->
  count <= Z.of_nat (length data) -> Z.max 1 (count - 3) <= Z.of_nat fuel ->
  report_crc p fuel data count = report_crc q fuel data count.
Proof.
  intros Hd Hc Hlen Hfuel. rewrite !report_crc_window by assumption. reflexivity.
Qed.

Lemma report_crc_platform_independent_witness :
  let data := [0x00; 0x11; 0x80; 0xff; 0x7f; 0xc3; 0x00; 0x00] in
  Forall is_u8 data /\ 2 <= 8 <= 257 /\ 8 <= Z.of_nat (length data) /\
  Z.max 1 (8 - 3) <= Z.of_nat 5 /\
  report_crc lp64_signed 5 data 8 = report_crc ilp32_unsigned 5 data 8.
Proof.
  intros data.
  assert (Forall is_u8 data) as Hd by (repeat constructor; u8).
  assert (2 <= 8 <= 257) as Hc by lia.
  assert (8 <= Z.of_nat (length data)) as Hlen by (vm_compute; discriminate).
  assert (Z.max 1 (8 - 3) <= Z.of_nat 5) as Hfuel by (vm_compute; discriminate).
  exact (conj Hd (conj Hc (conj Hlen (conj Hfuel
    (report_crc_platform_independent lp64_signed ilp32_unsigned 5 data 8
       Hd Hc Hlen Hfuel))))).
Defined.

(** X2: whatever the buffer holds and whatever [count] is, a value
    [report_crc] returns fits in a byte. *)
Theorem report_crc_result_u8 p fuel (data : list Z) count c :
  report_crc p fuel data count = Done c -> is_u8 c.
Proof. unfold report_crc. apply report_crc_loop_u8. u8. Qed.

Lemma report_crc_result_u8_witness :
  report_crc lp64_signed 4 [0; 0; 0xf0; 0x8f; 0x81; 0; 0] 7 = Done 0xfe /\
  is_u8 0xfe.
Proof.
  assert (report_crc lp64_signed 4 [0; 0; 0xf0; 0x8f; 0x81; 0; 0] 7 = Done 0xfe)
    as H by (vm_compute; reflexivity).
  exact (conj H (report_crc_result_u8 lp64_signed 4 _ 7 0xfe H)).
Defined.

(** X3: for [count] 2, 3 or 4 the window is empty: [report_crc] returns 0
    and reads nothing, whatever the buffer (the empty one too). *)
Theorem report_crc_empty_window p fuel (data : list Z) count :
  2 <= count <= 4 -> (0 < fuel)%nat -> report_crc p fuel data count = Done 0.
Proof.
  intros Hc Hfuel. unfold report_crc. rewrite to_size_t_small by lia.
  destruct fuel as [|fuel]; [lia|]. simpl.
  destruct (Z.ltb_spec 2 (count - 2)); [lia|]. reflexivity.
Qed.

Lemma report_crc_empty_window_witness :
  2 <= 4 <= 4 /\ (0 < 1)%nat /\ report_crc ilp32_unsigned 1 [] 4 = Done 0.
Proof.
  assert (2 <= 4 <= 4) as Hc by lia. assert (0 < 1)%nat as Hf by lia.
  exact (conj Hc (conj Hf (report_crc_empty_window ilp32_unsigned 1 [] 4 Hc Hf))).
Defined.

(** X4: [report_crc] trusts [count]: when the buffer has fewer than
    [count - 2] bytes, the loop reads past its end. *)
Theorem report_crc_short_buffer p fuel (data : list Z) count :
  4 < count <= 257 -> Z.of_nat (length data) < count - 2 ->
  Z.max 1 (Z.of_nat (length data) - 1) <= Z.of_nat fuel ->
  report_crc p fuel data count = Fault.
Proof.
  intros Hc Hlen Hfuel. unfold report_crc. rewrite to_size_t_small by lia.
  apply (report_crc_loop_fault p data (count - 2)
           (Z.to_nat (Z.max 2 (Z.of_nat (length data)) - 2))); lia.
Qed.

Lemma report_crc_short_buffer_witness :
  4 < 89 <= 257 /\ Z.of_nat (length [0x00; 0x5a; 0x00; 0x00; 0x05]) < 89 - 2 /\
  Z.max 1 (Z.of_nat (length [0x00; 0x5a; 0x00; 0x00; 0x05]) - 1) <= Z.of_nat 4 /\
  report_crc lp64_signed 4 [0x00; 0x5a; 0x00; 0x00; 0x05] 89 = Fault.
Proof.
  assert (4 < 89 <= 257) as Hc by lia.
  assert (Z.of_nat (length [0x00; 0x5a; 0x00; 0x00; 0x05]) < 89 - 2) as Hlen
    by (vm_compute; reflexivity).
  assert (Z.max 1 (Z.of_nat (length [0x00; 0x5a; 0x00; 0x00; 0x05]) - 1)
          <= Z.of_nat 4) as Hfuel by (vm_compute; discriminate).
  exact (conj Hc (conj Hlen (conj Hfuel
    (report_crc_short_buffer lp64_signed 4 _ 89 Hc Hlen Hfuel)))).
Defined.

Lemma swap_bytes_length i j (data : list Z) :
  length (swap_bytes i j data) = length data.
Proof.
  unfold swap_bytes. destruct (data !! i), (data !! j); try reflexivity.
  rewrite !poke_length. reflexivity.
Qed.

Lemma swap_bytes_u8 i j (data : list Z) :
  Forall is_u8 data -> Forall is_u8 (swap_bytes i j data).
Proof.
  intros Hd. unfold swap_bytes.
  destruct (data !! i) as [xi|] eqn:Ei, (data !! j) as [xj|] eqn:Ej;
    try assumption.
  apply poke_u8; [apply poke_u8|]; try assumption.
  - exact (Forall_lookup_1 _ _ _ _ Hd Ei).
  - exact (Forall_lookup_1 _ _ _ _ Hd Ej).
Qed.

Lemma xor_window_swap (data : list Z) i j lo hi :
  (lo <= i < hi)%nat -> (lo <= j < hi)%nat ->
  xor_window (swap_bytes i j data) lo hi = xor_window data lo hi.
Proof.
  intros Hi Hj. unfold swap_bytes.
  destruct (data !! i) as [xi|] eqn:Ei, (data !! j) as [xj|] eqn:Ej;
    try reflexivity.
  assert (poke j xi data !! i = Some xi) as Ei'.
  { unfold poke. destruct (decide (j = i)) as [-> | Hne].
    - apply list_lookup_insert_eq. eapply lookup_lt_Some, Ei.
    - rewrite list_lookup_insert_ne by assumption. exact Ei. }
  rewrite (xor_window_poke_inside _ i xj lo hi xi Hi Ei').
  rewrite (xor_window_poke_inside _ j xi lo hi xj Hj Ej).
  xor_bits.
Qed.

(** X5: the checksum does not see the order of the bytes: exchanging two
    bytes of the window of an 89-byte report leaves it as it was. *)
Theorem report_crc_swap_blind p fuel (data : list Z) (i j : nat) :
  length data = 89%nat -> Forall is_u8 data ->
  (2 <= i < 87)%nat -> (2 <= j < 87)%nat -> 86 <= Z.of_nat fuel ->
  exists c,
    report_crc p fuel data sizeof_report = Done c
    /\ report_crc p fuel (swap_bytes i j data) sizeof_report = Done c.
Proof.
  intros Hlen Hd Hi Hj Hfuel. exists (xor_window data 2 87). split.
  - rewrite report_crc_window; rewrite ?sizeof_report_val, ?Hlen;
      [reflexivity | assumption | lia..].
  - rewrite report_crc_window;
      rewrite ?sizeof_report_val, ?swap_bytes_length, ?Hlen;
      [| apply swap_bytes_u8; assumption | lia..].
    change (Z.to_nat (89 - 2)) with 87%nat.
    rewrite xor_window_swap by assumption. reflexivity.
Qed.

Lemma report_crc_swap_blind_witness :
  let data := report_bytes
                (sent_report lp64_signed 0x5a ATTR_LOGO_COLOR 0x10 0x20 0x30) in
  length data = 89%nat /\ Forall is_u8 data /\ (2 <= 9 < 87)%nat /\
  (2 <= 11 < 87)%nat /\ 86 <= Z.of_nat crc_fuel /\
  swap_bytes 9 11 data ≠ data /\
  exists c,
    report_crc lp64_signed crc_fuel data sizeof_report = Done c
    /\ report_crc lp64_signed crc_fuel (swap_bytes 9 11 data) sizeof_report
       = Done c.
Proof.
  intros data.
  assert (Forall is_u8 data) as Hd.
  { cbv -[Z.le Z.lt]. repeat constructor; lia. }
  assert (2 <= 9 < 87)%nat as Hi by lia.
  assert (2 <= 11 < 87)%nat as Hj by lia.
  assert (86 <= Z.of_nat crc_fuel) as Hfuel by (vm_compute; discriminate).
  assert (swap_bytes 9 11 data ≠ data) as Hne by (vm_compute; discriminate).
  exact (conj eq_refl (conj Hd (conj Hi (conj Hj (conj Hfuel (conj Hne
    (report_crc_swap_blind lp64_signed crc_fuel data 9 11
       eq_refl Hd Hi Hj Hfuel))))))).
Defined.

(** * Further properties of [write_attr] *)

(** With [count = 3] and memory available, a buffer of fewer than three
    bytes is read past its end. *)
Lemma write_attr_short p e attr_id (buf : list Z) tr :
  kzalloc_ok e = true -> (length buf < 3)%nat ->
  write_attr p e attr_id buf 3 tr = Fault.
Proof.
  intros Hk Hlen. unfold write_attr.
  rewrite bool_decide_false by (intros H; apply H; reflexivity).
  unfold mbind, M_bind, mret, M_ret, emit, kzalloc, get_random_bytes,
    read_char, usb_control_msg, mbind, M_bind, mret, M_ret, emit.
  rewrite Hk.
  destruct buf as [|b0 [|b1 [|b2 rest]]]; cbn [length] in Hlen; try lia;
    reflexivity.
Qed.

(** Every run of [write_attr], by cases. *)
Lemma write_attr_cases p e attr_id (buf : list Z) count :
  (count ≠ 3 /\ run (write_attr p e attr_id buf count) = Done (- EINVAL, []))
  \/ (count = 3 /\ kzalloc_ok e = false
      /\ run (write_attr p e attr_id buf count)
         = Done (- ENOMEM, [Ev_pr_info sizeof_report attr_id;
                            Ev_kzalloc sizeof_report false]))
  \/ (count = 3 /\ kzalloc_ok e = true /\ (length buf < 3)%nat
      /\ run (write_attr p e attr_id buf count) = Fault)
  \/ (count = 3 /\ kzalloc_ok e = true
      /\ exists b0 b1 b2 rest, buf = b0 :: b1 :: b2 :: rest
         /\ let tid := to_u8 (random_byte e) in
            let r := sent_report p tid attr_id b0 b1 b2 in
            let rc := to_int (usb_result e (report_bytes r) sizeof_report) in
            run (write_attr p e attr_id buf count)
            = Done (transfer_result p rc 3,
                    send_trace attr_id tid (report_bytes r) rc)).
Proof.
  destruct (decide (count = 3)) as [-> | Hne].
  - right. destruct (kzalloc_ok e) eqn:Hk.
    + right. destruct (decide (length buf < 3)%nat) as [Hlt | Hge].
      * left. repeat split; try assumption. apply write_attr_short; assumption.
      * right. repeat split.
        destruct buf as [|b0 [|b1 [|b2 rest]]]; cbn [length] in Hge; try lia.
        exists b0, b1, b2, rest. split; [reflexivity|].
        apply write_attr_run_sends, Hk.
    + left. repeat split. apply (write_attr_enomem p e _ _ [] Hk).
  - left. split; [assumption|]. apply write_attr_einval, Hne.
Qed.

Lemma sent_report_u8 p tid attr_id b0 b1 b2 :
  Forall is_u8 (report_bytes (sent_report p tid attr_id b0 b1 b2)).
Proof.
  unfold sent_report. cbn zeta.
  generalize (xor_window (report_bytes (fill_report p tid attr_id b0 b1 b2)) 2 87).
  intros c. rewrite fill_report_fields. unfold report_bytes, set_crc.
  cbn [status transaction_id remaining_packets protocol_type args_len
       cmd_class cmd_id args crc _reserved].
  assert (is_u8 0 /\ is_u8 1 /\ is_u8 3 /\ is_u8 5) as (H0 & H1 & H3 & H5)
    by (unfold is_u8; lia).
  repeat (apply Forall_app; split);
    repeat first [apply Forall_cons; split | apply Forall_nil];
    auto using to_u8_range, Forall_u8_replicate_0.
Qed.

Lemma sent_report_length p tid attr_id b0 b1 b2 :
  length (report_bytes (sent_report p tid attr_id b0 b1 b2)) = 89%nat.
Proof.
  rewrite length_report_bytes, sent_report_args_length. reflexivity.
Qed.

Lemma transfer_result_sign p rc :
  - 2 ^ 31 <= rc < 2 ^ 31 ->
  transfer_result p rc 3 = 3 \/ transfer_result p rc 3 < 0.
Proof.
  intros Hrc. destruct (decide (rc = sizeof_report)) as [Heq | Hne].
  - left. apply transfer_result_three_iff; assumption.
  - right. destruct (Z.neg_nonneg_cases rc).
    + rewrite transfer_result_error by lia. lia.
    + rewrite transfer_result_short by (auto; lia). unfold EIO. lia.
Qed.

(** X6: as its header comment says, [write_attr] returns the number of
    bytes written or a negative value: called with the length of its
    buffer, it always returns, and the value is [count] or negative,
    never zero and never a short positive count. *)
Theorem write_attr_returns_count_or_negative p e attr_id (buf : list Z) count :
  count = Z.of_nat (length buf) ->
  exists ret tr,
    run (write_attr p e attr_id buf count) = Done (ret, tr)
    /\ (ret = count \/ ret < 0).
Proof.
  intros Hlen.
  destruct (write_attr_cases p e attr_id buf count)
    as [[_ H] | [(_ & _ & H) | [(-> & _ & Hlt & _) | (-> & _ & H)]]].
  - eexists _, _. split; [exact H|]. right. unfold EINVAL. lia.
  - eexists _, _. split; [exact H|]. right. unfold ENOMEM. lia.
  - lia.
  - destruct H as (b0 & b1 & b2 & rest & -> & H). cbn zeta in H.
    eexists _, _. split; [exact H|].
    apply transfer_result_sign, to_int_range.
Qed.

Lemma write_attr_returns_count_or_negative_witness :
  let e := Env true 0x42 (fun _ _ => 0) in
  3 = Z.of_nat (length [0x10; 0x20; 0x30]) /\
  exists ret tr,
    run (write_attr lp64_signed e ATTR_LOGO_COLOR [0x10; 0x20; 0x30] 3)
    = Done (ret, tr)
    /\ (ret = 3 \/ ret < 0).
Proof.
  intros e.
  exact (conj eq_refl
    (write_attr_returns_count_or_negative lp64_signed e ATTR_LOGO_COLOR
       [0x10; 0x20; 0x30] 3 eq_refl)).
Defined.

(** X7: a completed [write_attr] keeps the report buffer in order: it is
    freed exactly when it was allocated, the transfer happens while it is
    held, and nothing is held at the end. *)
Theorem write_attr_heap_discipline p e attr_id (buf : list Z) count ret tr :
  run (write_attr p e attr_id buf count) = Done (ret, tr) ->
  heap_trace_ok false tr = true.
Proof.
  intros Hrun.
  destruct (write_attr_cases p e attr_id buf count)
    as [[_ H] | [(_ & _ & H) | [(_ & _ & _ & H) | (_ & _ & H)]]].
  - rewrite H in Hrun. injection Hrun as <- <-. reflexivity.
  - rewrite H in Hrun. injection Hrun as <- <-. reflexivity.
  - rewrite H in Hrun. discriminate.
  - destruct H as (b0 & b1 & b2 & rest & -> & H). cbn zeta in H.
    rewrite H in Hrun. injection Hrun as <- <-. reflexivity.
Qed.

Lemma write_attr_heap_discipline_witness :
  let e := Env true 0x42 (fun _ _ => 88) in
  let data := report_bytes
                (sent_report lp64_signed 0x42 ATTR_WHEEL_COLOR 0x01 0x02 0x03) in
  run (write_attr lp64_signed e ATTR_WHEEL_COLOR [0x01; 0x02; 0x03] 3)
  = Done (- EIO, send_trace ATTR_WHEEL_COLOR 0x42 data 88)
  /\ heap_trace_ok false (send_trace ATTR_WHEEL_COLOR 0x42 data 88) = true.
Proof.
  intros e data.
  assert (run (write_attr lp64_signed e ATTR_WHEEL_COLOR [0x01; 0x02; 0x03] 3)
          = Done (- EIO, send_trace ATTR_WHEEL_COLOR 0x42 data 88)) as H
    by (vm_compute; reflexivity).
  exact (conj H
    (write_attr_heap_discipline lp64_signed e ATTR_WHEEL_COLOR
       [0x01; 0x02; 0x03] 3 _ _ H)).
Defined.

Lemma foldl_lxor_zeros n c : foldl Z.lxor c (replicate n 0) = c.
Proof.
  induction n as [|n IH]; simpl; [reflexivity|].
  rewrite Z.lxor_0_r. exact IH.
Qed.

Lemma fill_report_args_length p tid attr_id b0 b1 b2 :
  length (args (fill_report p tid attr_id b0 b1 b2)) = ARGS_SIZE.
Proof. rewrite fill_report_fields. reflexivity. Qed.

(** The checksum of a report in closed form. *)
Lemma fill_report_checksum p tid attr_id r g b :
  is_u8 r -> is_u8 g -> is_u8 b ->
  xor_window (report_bytes (fill_report p tid attr_id r g b)) 2 87
  = Z.lxor (Z.lxor (Z.lxor (Z.lxor 6 (to_u8 attr_id)) r) g) b.
Proof.
  intros Hr Hg Hb.
  rewrite report_bytes_window by apply fill_report_args_length.
  rewrite fill_report_fields.
  cbn [status transaction_id remaining_packets protocol_type args_len
       cmd_class cmd_id args crc _reserved].
  rewrite !to_u8_char_val by assumption.
  change ([0; 0; 5; 3; 1] ++ [1; to_u8 attr_id; r; g; b] ++ replicate 75 0)
    with ([0; 0; 5; 3; 1; 1] ++ [to_u8 attr_id; r; g; b] ++ replicate 75 0).
  unfold xor_all. rewrite !foldl_app, foldl_lxor_zeros.
  change (foldl Z.lxor 0 [0; 0; 5; 3; 1; 1]) with 6. reflexivity.
Qed.

Lemma sent_report_wire p tid attr_id r g b :
  is_u8 r -> is_u8 g -> is_u8 b ->
  report_bytes (sent_report p tid attr_id r g b)
  = wire_image (to_u8 tid) (to_u8 attr_id) r g b.
Proof.
  intros Hr Hg Hb. unfold sent_report. cbn zeta.
  rewrite fill_report_checksum by assumption.
  assert (is_u8 (Z.lxor (Z.lxor (Z.lxor (Z.lxor 6 (to_u8 attr_id)) r) g) b))
    as Hc by (repeat apply lxor_u8; try assumption; [u8 | apply to_u8_range]).
  unfold wire_image.
  generalize dependent (Z.lxor (Z.lxor (Z.lxor (Z.lxor 6 (to_u8 attr_id)) r) g) b).
  intros c Hc. rewrite fill_report_fields. unfold report_bytes, set_crc.
  cbn [status transaction_id remaining_packets protocol_type args_len
       cmd_class cmd_id args crc _reserved].
  rewrite !to_u8_char_val, (to_u8_small c) by assumption.
  reflexivity.
Qed.

(** X8: the bytes a write puts on the wire, in full: for LED id [attr_id]
    and colour [(r, g, b)] they are
    [0, tid, 0, 0, 5, 3, 1, 1, attr_id, r, g, b], 75 zeros, the checksum
    [6 ^ attr_id ^ r ^ g ^ b], and 0, where [tid] is the random byte and
    [attr_id] is reduced to a byte. *)
Theorem write_attr_wire_image p e attr_id r g b :
  is_u8 r -> is_u8 g -> is_u8 b -> kzalloc_ok e = true ->
  let tid := to_u8 (random_byte e) in
  exists rc ret,
    run (write_attr p e attr_id [r; g; b] 3)
    = Done (ret, send_trace attr_id tid
                   (wire_image tid (to_u8 attr_id) r g b) rc).
Proof.
  intros Hr Hg Hb Hk tid. eexists _, _.
  rewrite (write_attr_run_sends p e attr_id r g b [] Hk). cbn zeta.
  rewrite sent_report_wire by assumption. fold tid.
  rewrite (to_u8_small tid) by apply to_u8_range. reflexivity.
Qed.

Lemma write_attr_wire_image_witness :
  let e := Env true 0x1c3 (fun _ size => size) in
  is_u8 0xff /\ is_u8 0x80 /\ is_u8 0x01 /\ kzalloc_ok e = true /\
  exists rc ret,
    run (write_attr lp64_signed e ATTR_WHEEL_COLOR [0xff; 0x80; 0x01] 3)
    = Done (ret, send_trace ATTR_WHEEL_COLOR (to_u8 0x1c3)
                   (wire_image (to_u8 0x1c3) (to_u8 ATTR_WHEEL_COLOR)
                      0xff 0x80 0x01) rc).
Proof.
  intros e.
  assert (is_u8 0xff) as H1 by u8. assert (is_u8 0x80) as H2 by u8.
  assert (is_u8 0x01) as H3 by u8.
  exact (conj H1 (conj H2 (conj H3 (conj eq_refl
    (write_attr_wire_image lp64_signed e ATTR_WHEEL_COLOR 0xff 0x80 0x01
       H1 H2 H3 eq_refl))))).
Defined.

Lemma transfer_result_platform p q rc :
  - 2 ^ 31 <= rc < 2 ^ 31 -> transfer_result p rc 3 = transfer_result q rc 3.
Proof.
  intros Hrc. destruct (decide (rc = sizeof_report)) as [Heq | Hne].
  - rewrite !transfer_result_full, !to_ssize_t_int by (assumption || lia).
    reflexivity.
  - destruct (Z.neg_nonneg_cases rc).
    + rewrite !transfer_result_error by lia. reflexivity.
    + rewrite !transfer_result_short by (auto; lia). reflexivity.
Qed.

(** X9: on a buffer of bytes, a write does the same on every platform:
    the same calls with the same report and the same return value,
    whatever the width of [size_t] and the signedness of [char]. *)
Theorem write_attr_platform_independent p q e attr_id (buf : list Z) count :
  Forall is_u8 buf ->
  run (write_attr p e attr_id buf count) = run (write_attr q e attr_id buf count).
Proof.
  intros Hbuf. destruct (decide (count = 3)) as [-> | Hne].
  - destruct (kzalloc_ok e) eqn:Hk.
    + destruct (decide (length buf < 3)%nat) as [Hlt | Hge].
      * unfold run. rewrite !write_attr_short by assumption. reflexivity.
      * destruct buf as [|b0 [|b1 [|b2 rest]]]; cbn [length] in Hge; try lia.
        apply Forall_cons in Hbuf as [H0 Hbuf].
        apply Forall_cons in Hbuf as [H1 Hbuf].
        apply Forall_cons in Hbuf as [H2 _].
        rewrite !write_attr_run_sends by assumption. cbn zeta.
        rewrite !sent_report_wire by assumption.
        rewrite (transfer_result_platform p q) by apply to_int_range.
        reflexivity.
    + unfold run. rewrite !write_attr_enomem by assumption. reflexivity.
  - unfold run. rewrite !write_attr_einval by assumption. reflexivity.
Qed.

Lemma write_attr_platform_independent_witness :
  let e := Env true 0x7e (fun _ _ => -19) in
  Forall is_u8 [0xff; 0x80; 0x7f] /\
  run (write_attr lp64_signed e ATTR_LOGO_COLOR [0xff; 0x80; 0x7f] 3)
  = run (write_attr ilp32_unsigned e ATTR_LOGO_COLOR [0xff; 0x80; 0x7f] 3).
Proof.
  intros e.
  assert (Forall is_u8 [0xff; 0x80; 0x7f]) as Hb by (repeat constructor; u8).
  exact (conj Hb
    (write_attr_platform_independent lp64_signed ilp32_unsigned e
       ATTR_LOGO_COLOR [0xff; 0x80; 0x7f] 3 Hb)).
Defined.

Lemma wire_image_led tid led led' r g b :
  wire_image tid led' r g b
  = poke 87 (Z.lxor (Z.lxor (Z.lxor (Z.lxor 6 led') r) g) b)
      (poke 8 led' (wire_image tid led r g b)).
Proof. reflexivity. Qed.

(** X10: the two attribute handlers differ only in the LED they name: for
    the same colour and the same random byte, the logo report and the
    wheel report agree on every byte but byte 8 (4 against 1) and the
    checksum, which differ by [4 ^ 1 = 5]. *)
Theorem handlers_differ_in_led_and_crc p e r g b :
  is_u8 r -> is_u8 g -> is_u8 b -> kzalloc_ok e = true ->
  exists tid logo wheel rc_l rc_w ret_l ret_w c,
    run (rzchroma_attr_write_logo_color p e [r; g; b] 3)
    = Done (ret_l, send_trace ATTR_LOGO_COLOR tid logo rc_l)
    /\ run (rzchroma_attr_write_wheel_color p e [r; g; b] 3)
       = Done (ret_w, send_trace ATTR_WHEEL_COLOR tid wheel rc_w)
    /\ logo !! 8%nat = Some 4 /\ wheel !! 8%nat = Some 1
    /\ wheel !! 87%nat = Some c /\ logo !! 87%nat = Some (Z.lxor c 5)
    /\ forall k : nat, k ≠ 8%nat -> k ≠ 87%nat -> logo !! k = wheel !! k.
Proof.
  intros Hr Hg Hb Hk.
  destruct (write_attr_wire_image p e ATTR_LOGO_COLOR r g b Hr Hg Hb Hk)
    as (rc_l & ret_l & Hl).
  destruct (write_attr_wire_image p e ATTR_WHEEL_COLOR r g b Hr Hg Hb Hk)
    as (rc_w & ret_w & Hw).
  change (to_u8 ATTR_LOGO_COLOR) with 4 in Hl.
  change (to_u8 ATTR_WHEEL_COLOR) with 1 in Hw.
  eexists _, _, _, _, _, _, _, _.
  split; [exact Hl|]. split; [exact Hw|].
  split; [reflexivity|]. split; [reflexivity|]. split; [reflexivity|].
  split.
  - cbn. f_equal. change 4 with (Z.lxor 1 5). xor_bits.
  - intros k H8 H87. rewrite (wire_image_led _ 1 4). unfold poke.
    rewrite !list_lookup_insert_ne by auto. reflexivity.
Qed.

Lemma handlers_differ_in_led_and_crc_witness :
  let e := Env true 0x33 (fun _ size => size) in
  is_u8 0x00 /\ is_u8 0xff /\ is_u8 0x40 /\ kzalloc_ok e = true /\
  exists tid logo wheel rc_l rc_w ret_l ret_w c,
    run (rzchroma_attr_write_logo_color lp64_signed e [0x00; 0xff; 0x40] 3)
    = Done (ret_l, send_trace ATTR_LOGO_COLOR tid logo rc_l)
    /\ run (rzchroma_attr_write_wheel_color lp64_signed e [0x00; 0xff; 0x40] 3)
       = Done (ret_w, send_trace ATTR_WHEEL_COLOR tid wheel rc_w)
    /\ logo !! 8%nat = Some 4 /\ wheel !! 8%nat = Some 1
    /\ wheel !! 87%nat = Some c /\ logo !! 87%nat = Some (Z.lxor c 5)
    /\ forall k : nat, k ≠ 8%nat -> k ≠ 87%nat -> logo !! k = wheel !! k.
Proof.
  intros e.
  assert (is_u8 0x00) as H1 by u8. assert (is_u8 0xff) as H2 by u8.
  assert (is_u8 0x40) as H3 by u8.
  exact (conj H1 (conj H2 (conj H3 (conj eq_refl
    (handlers_differ_in_led_and_crc lp64_signed e 0x00 0xff 0x40
       H1 H2 H3 eq_refl))))).
Defined.

(** X11: a write never sends part of a report: [usb_control_msg] is
    called at most once, and when it is, with size 89 and a buffer of
    exactly 89 bytes, each in range, whose [status] and [_reserved] bytes
    are 0. *)
Theorem write_attr_transfers_whole_report p e attr_id (buf : list Z) count ret tr :
  run (write_attr p e attr_id buf count) = Done (ret, tr) ->
  (usb_calls tr <= 1)%nat
  /\ forall data size rc,
       Ev_usb_control_msg data size rc ∈ tr ->
       size = 89 /\ length data = 89%nat /\ Forall is_u8 data
       /\ data !! 0%nat = Some 0 /\ data !! 88%nat = Some 0.
Proof.
  intros Hrun.
  destruct (write_attr_cases p e attr_id buf count)
    as [[_ H] | [(_ & _ & H) | [(_ & _ & _ & H) | (_ & _ & H)]]].
  - rewrite H in Hrun. injection Hrun as <- <-. split; [cbn; lia|].
    intros data size rc Hin. apply elem_of_nil in Hin. contradiction.
  - rewrite H in Hrun. injection Hrun as <- <-. split; [cbn; lia|].
    intros data size rc Hin.
    repeat (apply elem_of_cons in Hin as [Heq | Hin]; [discriminate|]).
    apply elem_of_nil in Hin. contradiction.
  - rewrite H in Hrun. discriminate.
  - destruct H as (b0 & b1 & b2 & rest & -> & H). cbn zeta in H.
    rewrite H in Hrun. injection Hrun as <- <-. split; [cbn; lia|].
    intros data size rc Hin. unfold send_trace in Hin.
    repeat (apply elem_of_cons in Hin as [Heq | Hin];
            [try discriminate|]);
      [|apply elem_of_nil in Hin; contradiction].
    injection Heq as -> -> ->.
    split; [reflexivity|]. split; [apply sent_report_length|].
    split; [apply sent_report_u8|].
    unfold sent_report. cbn zeta. rewrite fill_report_fields.
    split; reflexivity.
Qed.

Lemma write_attr_transfers_whole_report_witness :
  let e := Env true 0x42 (fun _ _ => 88) in
  let data := report_bytes
                (sent_report lp64_signed 0x42 ATTR_WHEEL_COLOR 0x01 0x02 0x03) in
  run (write_attr lp64_signed e ATTR_WHEEL_COLOR [0x01; 0x02; 0x03] 3)
  = Done (- EIO, send_trace ATTR_WHEEL_COLOR 0x42 data 88)
  /\ (usb_calls (send_trace ATTR_WHEEL_COLOR 0x42 data 88) <= 1)%nat
  /\ forall d size rc,
       Ev_usb_control_msg d size rc ∈ send_trace ATTR_WHEEL_COLOR 0x42 data 88 ->
       size = 89 /\ length d = 89%nat /\ Forall is_u8 d
       /\ d !! 0%nat = Some 0 /\ d !! 88%nat = Some 0.
Proof.
  intros e data.
  assert (run (write_attr lp64_signed e ATTR_WHEEL_COLOR [0x01; 0x02; 0x03] 3)
          = Done (- EIO, send_trace ATTR_WHEEL_COLOR 0x42 data 88)) as H
    by (vm_compute; reflexivity).
  exact (conj H
    (write_attr_transfers_whole_report lp64_signed e ATTR_WHEEL_COLOR
       [0x01; 0x02; 0x03] 3 _ _ H)).
Defined.

(** X12: [write_attr] checks [count], not the buffer: with [count = 3],
    memory available and a buffer of fewer than three bytes, it reads
    [buf] past its end. *)
Theorem write_attr_reads_three_bytes p e attr_id (buf : list Z) :
  kzalloc_ok e = true -> (length buf < 3)%nat ->
  run (write_attr p e attr_id buf 3) = Fault.
Proof. intros Hk Hlen. apply write_attr_short; assumption. Qed.

Lemma write_attr_reads_three_bytes_witness :
  let e := Env true 0x42 (fun _ size => size) in
  kzalloc_ok e = true /\ (length [0x10; 0x20] < 3)%nat /\
  run (write_attr lp64_signed e ATTR_LOGO_COLOR [0x10; 0x20] 3) = Fault.
Proof.
  intros e. assert (length [0x10; 0x20] < 3)%nat as Hlen by (cbn; lia).
  exact (conj eq_refl (conj Hlen
    (write_attr_reads_three_bytes lp64_signed e ATTR_LOGO_COLOR
       [0x10; 0x20] eq_refl Hlen))).
Defined.

(** * Binding and unbinding *)

Lemma rzchroma_probe_ok_trace k :
  fst (rzchroma_probe k) = 0 ->
  snd (rzchroma_probe k)
  = [Hid_device_create_file dev_attr_logo_color;
     Hid_device_create_file dev_attr_wheel_color;
     Hid_parse 0; Hid_hw_start 0; Hid_hw_open 0;
     Hid_usb_disable_autosuspend].
Proof.
  unfold rzchroma_probe.
  set (r1 := to_int (hid_parse_result k)).
  set (r2 := to_int (hid_hw_start_result k)).
  set (r3 := to_int (hid_hw_open_result k)).
  repeat case_bool_decide; cbn [fst snd app]; intros Hret;
    try contradiction.
  destruct (decide (r3 = 0)) as [E3|]; [|contradiction].
  destruct (decide (r2 = 0)) as [E2|]; [|contradiction].
  destruct (decide (r1 = 0)) as [E1|]; [|contradiction].
  rewrite E1, E2, E3. reflexivity.
Qed.

(** X13: the probe succeeds exactly when [hid_parse], [hid_hw_start] and
    [hid_hw_open] all return 0; it then has created both attribute files,
    made the three calls in that order and, last, disabled autosuspend. *)
Theorem rzchroma_probe_succeeds_iff k :
  let r1 := to_int (hid_parse_result k) in
  let r2 := to_int (hid_hw_start_result k) in
  let r3 := to_int (hid_hw_open_result k) in
  (fst (rzchroma_probe k) = 0 <-> r1 = 0 /\ r2 = 0 /\ r3 = 0)
  /\ (fst (rzchroma_probe k) = 0 ->
      snd (rzchroma_probe k)
      = [Hid_device_create_file dev_attr_logo_color;
         Hid_device_create_file dev_attr_wheel_color;
         Hid_parse 0; Hid_hw_start 0; Hid_hw_open 0;
         Hid_usb_disable_autosuspend]).
Proof.
  intros r1 r2 r3. split; [|apply rzchroma_probe_ok_trace].
  unfold rzchroma_probe. fold r1 r2 r3.
  repeat case_bool_decide; cbn [fst snd]; split;
    first [ intros (? & ? & ?); congruence
          | intros; try contradiction; repeat split; lia
          | reflexivity ].
Qed.

(** X14: a probe that fails returns the nonzero result of the call that
    failed, never disables autosuspend, and undoes nothing: it makes no
    [device_remove_file], [hid_hw_close] or [hid_hw_stop] call, so the
    attribute files it created (and hardware it started) are left
    behind. *)
Theorem rzchroma_probe_failure_leaves_files k :
  fst (rzchroma_probe k) ≠ 0 ->
  (fst (rzchroma_probe k) = to_int (hid_parse_result k)
   \/ fst (rzchroma_probe k) = to_int (hid_hw_start_result k)
   \/ fst (rzchroma_probe k) = to_int (hid_hw_open_result k))
  /\ (Hid_usb_disable_autosuspend ∉ snd (rzchroma_probe k))
  /\ Forall (fun ev => is_cleanup ev = false) (snd (rzchroma_probe k))
  /\ (Hid_device_create_file dev_attr_logo_color ∈ snd (rzchroma_probe k))
  /\ (Hid_device_create_file dev_attr_wheel_color ∈ snd (rzchroma_probe k))
  /\ lifecycle_ok [] false false (snd (rzchroma_probe k)) = false.
Proof.
  unfold rzchroma_probe.
  set (r1 := to_int (hid_parse_result k)).
  set (r2 := to_int (hid_hw_start_result k)).
  set (r3 := to_int (hid_hw_open_result k)).
  repeat case_bool_decide; cbn [fst snd app]; intros Hret;
    try congruence;
    (split; [auto|]);
    (split; [rewrite !not_elem_of_cons; repeat split;
               try discriminate; apply not_elem_of_nil|]);
    (split; [repeat first [apply Forall_nil_2
                          | apply Forall_cons_2; [reflexivity|]]|]);
    (split; [apply list_elem_of_here|]);
    (split; [apply list_elem_of_further, list_elem_of_here|]);
    cbn [lifecycle_ok].
  - reflexivity.
  - rewrite bool_decide_false by assumption. reflexivity.
  - destruct (decide (r2 = 0)) as [E|]; [|contradiction].
    rewrite E, bool_decide_true by reflexivity.
    rewrite bool_decide_false by assumption. reflexivity.
Qed.

Lemma rzchroma_probe_failure_leaves_files_witness :
  let k := HidEnv 0 0 (-19) in
  fst (rzchroma_probe k) ≠ 0 /\
  snd (rzchroma_probe k)
  = [Hid_device_create_file dev_attr_logo_color;
     Hid_device_create_file dev_attr_wheel_color;
     Hid_parse 0; Hid_hw_start 0; Hid_hw_open (-19);
     Hid_err hid_hw_open_failed] /\
  Forall (fun ev => is_cleanup ev = false) (snd (rzchroma_probe k)) /\
  lifecycle_ok [] false false (snd (rzchroma_probe k)) = false.
Proof.
  intros k.
  assert (fst (rzchroma_probe k) ≠ 0) as H by (vm_compute; discriminate).
  destruct (rzchroma_probe_failure_leaves_files k H)
    as (_ & _ & Hc & _ & _ & Hl).
  exact (conj H (conj eq_refl (conj Hc Hl))).
Defined.


